(** * quy_dashboard: the computations of the stock dashboard

    A shallow embedding of the computations of [quy_dashboard.py]:

    - tab 4 (lines 230-247): the historical-bootstrap Monte Carlo simulation,
      [returns = filtered_data['Close'].pct_change().dropna()] followed by the
      nested loop that fills the [simulations] array;
    - tab 5 (lines 250-317): the scan over the tickers of a sector that
      collects one market-cap change per ticker, sorts and shows the first ten;
    - tab 1 (lines 85-101) and tab 2 (lines 162-219): the rows of the price
      history that the two charts show, the colours of the volume bars and the
      range of the volume axis;
    - lines 27-57: the cache of the fetched data and the session state, over
      the runs of the script.

    Prices are numpy [float64] values: they are modelled by Rocq's primitive
    binary64 floats, so that NaN, infinities, rounding and underflow are the
    ones of the program.  Python exceptions are values of [exn]; the global
    numpy random generator is an explicit state. *)

From Stdlib Require Import ZArith Floats Sorted.
From stdpp Require Import base option list sorting gmap strings.

Local Open Scope Z_scope.

(* ===================================================================== *)
(** ** Python exceptions and fallible computations *)
(* ===================================================================== *)

(** The exception classes that the modelled lines can raise.  All of them are
    subclasses of [Exception], which is what [except Exception] (line 290)
    catches.  [ProviderError] stands for whatever the data provider raises on
    a network or decoding failure. *)
Inductive exn : Type :=
  | IndexError
  | ValueError
  | TypeError
  | ProviderError.

Inductive result (A : Type) : Type :=
  | Ok (a : A)
  | Raise (e : exn).
Arguments Ok {A} a.
Arguments Raise {A} e.

#[global] Instance result_ret : MRet result := fun A a => Ok a.

#[global] Instance result_bind : MBind result := fun A B k r =>
  match r with
  | Ok a => k a
  | Raise e => Raise e
  end.

(** [range(n)] for a Python integer [n]: empty when [n <= 0]. *)
Definition range (n : Z) : list nat := seq 0 (Z.to_nat n).

(** Positional indexing [s.iloc[k]] (and list indexing [l[k]]): a negative
    position counts from the end, a position outside the sequence raises
    [IndexError]. *)
Definition iloc {A : Type} (s : list A) (k : Z) : result A :=
  let n := Z.of_nat (length s) in
  let i := if k <? 0 then n + k else k in
  if (i <? 0) || (n <=? i) then Raise IndexError
  else match s !! Z.to_nat i with
       | Some x => Ok x
       | None => Raise IndexError
       end.

(* ===================================================================== *)
(** ** The numpy random generator *)
(* ===================================================================== *)

(** The state of [np.random]: an unbounded tape of raw draws and the number of
    draws consumed so far.  Nothing is assumed about the tape, so a statement
    proved for every [rng] holds for every outcome of the random draws. *)
Record rng : Type := Rng { tape : nat -> nat; used : nat }.

(** Computations that draw random numbers and may raise. *)
Definition M (A : Type) : Type := rng -> result (A * rng).

#[global] Instance M_ret : MRet M := fun A a g => Ok (a, g).

#[global] Instance M_bind : MBind M := fun A B k m g =>
  match m g with
  | Ok (a, g') => k a g'
  | Raise e => Raise e
  end.

Definition lift {A : Type} (r : result A) : M A :=
  fun g => match r with
           | Ok a => Ok (a, g)
           | Raise e => Raise e
           end.

(** [np.random.choice(a)] on a one-dimensional [a]: raises [ValueError] when
    [a] is empty, otherwise returns [a[j]] for a drawn position [j]. *)
Definition np_random_choice (a : list float) : M float :=
  fun g =>
    match a !! (tape g (used g) mod length a)%nat with
    | Some r => Ok (r, Rng (tape g) (S (used g)))
    | None => Raise ValueError
    end.

(** A [for] loop over a list that threads an accumulator. *)
Fixpoint for_each {A S : Type} (xs : list A) (body : A -> S -> M S) (s : S) : M S :=
  match xs with
  | [] => mret s
  | x :: xs' => s' ← body x s; for_each xs' body s'
  end.

(* ===================================================================== *)
(** ** pandas: [pct_change] and [dropna] *)
(* ===================================================================== *)

(** [Series.shift(1)]: same length, NaN in front, last entry dropped. *)
Definition shift1 (s : list float) : list float := take (length s) (nan :: s).

(** [Series.pct_change()]: [s / s.shift(1) - 1], entry by entry.  The call
    passes no [fill_method] and pandas fills no missing value: a NaN entry
    makes its own change and the change of the entry after it NaN. *)
Definition pct_change (s : list float) : list float :=
  zip_with (fun cur prev => (cur / prev - 1)%float) s (shift1 s).

(** [Series.dropna()]. *)
Definition dropna (s : list float) : list float :=
  filter (fun x => is_nan x = false) s.

(* ===================================================================== *)
(** ** numpy: the two-dimensional [simulations] array *)
(* ===================================================================== *)

(** A two-dimensional array of shape [(shape0, shape1)], stored row by row. *)
Record ndarray : Type :=
  Ndarray { shape0 : nat; shape1 : nat; rows : list (list float) }.

(** [np.zeros((h, m))]: negative dimensions raise [ValueError]. *)
Definition np_zeros (h m : Z) : result ndarray :=
  if (h <? 0) || (m <? 0) then Raise ValueError
  else Ok (Ndarray (Z.to_nat h) (Z.to_nat m)
             (replicate (Z.to_nat h) (replicate (Z.to_nat m) 0%float))).

(** [a[:, i] = v] for a list [v]: [v] must have [shape0] entries, or one entry
    that is broadcast to the whole column. *)
Definition set_column (a : ndarray) (i : nat) (v : list float) : result ndarray :=
  if decide (shape1 a <= i)%nat then Raise IndexError
  else if decide (length v = shape0 a) then
    Ok (Ndarray (shape0 a) (shape1 a)
          (zip_with (fun row x => <[i:=x]> row) (rows a) v))
  else match v with
       | [x] => Ok (Ndarray (shape0 a) (shape1 a)
                      ((fun row => <[i:=x]> row) <$> rows a))
       | _ => Raise ValueError
       end.

(** [a[t, i]]. *)
Definition item (a : ndarray) (t i : nat) : option float :=
  row ← rows a !! t; row !! i.

(** [a[:, i]], the column that tab 4 plots as one simulated path. *)
Definition column (a : ndarray) (i : nat) : list float :=
  omap (fun row => row !! i) (rows a).

(* ===================================================================== *)
(** ** Tab 4: Monte Carlo simulation (lines 230-247) *)
(* ===================================================================== *)

(** The choices offered by the two select boxes (lines 232-233). *)
Definition num_simulations_options : list Z := [200; 500; 1000].
Definition time_horizon_options : list Z := [30; 60; 90].

(** Line 234: [returns = filtered_data['Close'].pct_change().dropna()]. *)
Definition sample_returns (close : list float) : list float :=
  dropna (pct_change close).

(** Lines 240-241: one pass of the inner loop,
    [prices.append(prices[-1] * (1 + np.random.choice(returns)))]. *)
Definition append_price (returns prices : list float) : M (list float) :=
  p ← lift (iloc prices (-1));
  r ← np_random_choice returns;
  mret (prices ++ [(p * (1 + r))%float]).

(** Lines 239-241: the path built for one simulation. *)
Definition simulate_path (returns : list float) (last_price : float)
    (time_horizon : Z) : M (list float) :=
  for_each (range (time_horizon - 1))
    (fun _ prices => append_price returns prices) [last_price].

(** Lines 237-242: the array of all simulated paths, one per column. *)
Definition simulate_paths (returns : list float) (last_price : float)
    (time_horizon num_simulations : Z) : M ndarray :=
  simulations ← lift (np_zeros time_horizon num_simulations);
  for_each (range num_simulations)
    (fun i simulations =>
       prices ← simulate_path returns last_price time_horizon;
       lift (set_column simulations i prices))
    simulations.

(** Lines 234-235: the two inputs of the simulation read from the price
    history. *)
Definition tab4_inputs (close : list float) : result (list float * float) :=
  let returns := sample_returns close in
  last_price ← iloc close (-1);
  mret (returns, last_price).

(** Lines 234-242 as a whole. *)
Definition tab4 (close : list float) (num_simulations time_horizon : Z) : M ndarray :=
  '(returns, last_price) ← lift (tab4_inputs close);
  simulate_paths returns last_price time_horizon num_simulations.

(* ===================================================================== *)
(** ** Tab 5: ranking by market-cap change (lines 250-317) *)
(* ===================================================================== *)

(** A value found in the provider's [info] dictionary: [None], a number (held
    as the binary64 value that enters the products of line 287), or something
    that is not a number. *)
Inductive pyval : Type :=
  | PyNone
  | PyNum (x : float)
  | PyStr (s : string).

Definition is_None (v : pyval) : bool :=
  match v with
  | PyNone => true
  | _ => false
  end.

(** [price * shares_outstanding] for a [float64] price: a value that is not a
    number raises [TypeError]. *)
Definition py_mul (price : float) (v : pyval) : result float :=
  match v with
  | PyNum x => Ok (price * x)%float
  | _ => Raise TypeError
  end.

(** What [yf.Ticker(ticker)] gives for one ticker: the [Close] column of
    [history(period="1y")], one entry per row of the frame, and the [info]
    dictionary; either access may raise instead. *)
Record ticker_data : Type := TickerData {
  history : result (list float);
  info : result (gmap string pyval)
}.

(** The options of the period select box (line 264). *)
Definition date_options : list (string * Z) :=
  [("1 Day", 1); ("30 Days", 30); ("90 Days", 90); ("180 Days", 180);
   ("365 Days", 365)]%string.

(** One row of [results] (line 289). *)
Record row : Type := Row { Ticker : string; Market_Cap_Change : float }.

(** Lines 276-287 for one ticker: [Ok None] when the ticker is passed over
    ([continue] on line 281, or the test of line 284 is false), [Ok (Some c)]
    when a row is appended, [Raise e] when an exception escapes to the
    handler of line 290. *)
Definition market_cap_change (period_days : Z) (ticker_data : ticker_data)
    : result (option float) :=
  history ← history ticker_data;
  info ← info ticker_data;
  let shares_outstanding := default PyNone (info !! "sharesOutstanding"%string) in
  if is_None shares_outstanding || bool_decide (length history = 0%nat) then
    mret None
  else if Z.of_nat (length history) >? period_days then
    start_price ← iloc history (- period_days);
    end_price ← iloc history (-1);
    end_cap ← py_mul end_price shares_outstanding;
    start_cap ← py_mul start_price shares_outstanding;
    mret (Some (end_cap - start_cap)%float)
  else mret None.

(** Lines 272-292: the loop over the tickers of the sector.  [yf] is the data
    provider; [results] is the list built so far. *)
Fixpoint scan (yf : string -> ticker_data) (period_days : Z)
    (industry_tickers : list string) (results : list row) : list row :=
  match industry_tickers with
  | [] => results
  | ticker :: rest =>
      match market_cap_change period_days (yf ticker) with
      | Ok (Some change) =>
          scan yf period_days rest (results ++ [Row ticker change])
      | Ok None => scan yf period_days rest results
      | Raise _ => scan yf period_days rest results
      end
  end.

(** [DataFrame.sort_values(by="Market Cap Change", ascending=False)].

    No [kind] is passed, so pandas sorts with numpy's default ['quicksort'],
    which both libraries document as not stable.  The call is therefore
    modelled by what is guaranteed of it: the rows whose key is not NaN come
    first, in non-increasing order of the key, in some order among equal keys;
    the rows whose key is NaN come last ([na_position='last']), in their
    original order. *)
Definition sort_values_desc (rows out : list row) : Prop :=
  exists s : list row,
    s ≡ₚ filter (fun r => is_nan (Market_Cap_Change r) = false) rows /\
    StronglySorted
      (fun a b => (Market_Cap_Change b <=? Market_Cap_Change a)%float = true) s /\
    out = s ++ filter (fun r => is_nan (Market_Cap_Change r) = true) rows.

(** What tab 5 shows (lines 295-317): the table of the first ten rows, or the
    message "No data available for the selected industry and period." *)
Inductive tab5_view : Type :=
  | TopCompanies (top_companies : list row)
  | NoData.

Definition tab5 (yf : string -> ticker_data) (period_days : Z)
    (industry_tickers : list string) (view : tab5_view) : Prop :=
  let results := scan yf period_days industry_tickers [] in
  match view with
  | TopCompanies top_companies =>
      results <> [] /\
      exists sorted, sort_values_desc results sorted /\
                     top_companies = take 10 sorted
  | NoData => results = []
  end.

(* ===================================================================== *)
(** ** The ranking as the specification words it *)
(* ===================================================================== *)

(** A stable descending sort: a row is inserted in front of the first row
    whose key is not strictly greater, so rows with equal keys keep the order
    in which they were collected. *)
Fixpoint insert_desc (r : row) (s : list row) : list row :=
  match s with
  | [] => [r]
  | x :: s' =>
      if (Market_Cap_Change r <? Market_Cap_Change x)%float
      then x :: insert_desc r s'
      else r :: x :: s'
  end.

Definition stable_sort_desc (rows : list row) : list row :=
  foldr insert_desc [] (filter (fun r => is_nan (Market_Cap_Change r) = false) rows)
  ++ filter (fun r => is_nan (Market_Cap_Change r) = true) rows.

(** The ranking of the specification: descending by change, ties in the
    original order of the symbols, first ten. *)
Definition stable_top10 (results : list row) : list row :=
  take 10 (stable_sort_desc results).

(** The change as the specification words it: the last close minus the close
    [n] observations before the last, times the number of shares. *)
Definition spec_delta (n : nat) (close : list float) (shares : float) : option float :=
  if bool_decide (n < length close)%nat then
    latest ← last close;
    before ← close !! (length close - 1 - n)%nat;
    Some ((latest - before) * shares)%float
  else None.

(** The paths that tab 4 plots (lines 245-246): [simulations[:, i]] for [i] in
    [range(num_simulations)]. *)
Definition plotted_paths (simulations : ndarray) (num_simulations : Z)
    : list (list float) :=
  column simulations <$> range num_simulations.

(** A path of the bootstrap: it starts at [p0] and every later price is the
    price before it times [1 + r] for some [r] of the sample. *)
Definition bootstrap_path (returns : list float) (p0 : float)
    (prices : list float) : Prop :=
  prices !! 0%nat = Some p0 /\
  forall (t : nat) (a b : float),
    prices !! t = Some a -> prices !! S t = Some b ->
    exists r, r ∈ returns /\ b = (a * (1 + r))%float.

(** The order in which [sort_values] leaves two rows, the first before the
    second: the key of the second is not greater, or it is NaN. *)
Definition desc_nan_last (a b : row) : Prop :=
  (Market_Cap_Change b <=? Market_Cap_Change a)%float = true \/
  is_nan (Market_Cap_Change b) = true.

(** The row that the loop of tab 5 appends for one ticker, if any. *)
Definition scan_row (yf : string -> ticker_data) (period_days : Z)
    (ticker : string) : option row :=
  match market_cap_change period_days (yf ticker) with
  | Ok (Some change) => Some (Row ticker change)
  | _ => None
  end.

(** A provider that answers every ticker with the same two closes, 100 then
    110, and one share outstanding. *)
Definition yf_two_closes (ticker : string) : ticker_data :=
  TickerData (Ok [100; 110]%float)
             (Ok {[ "sharesOutstanding"%string := PyNum 1 ]}).

(** A provider that fails on the history of "BAD", returns a share count that
    is not a number for "STR", and answers like [yf_two_closes] otherwise. *)
Definition yf_failing (ticker : string) : ticker_data :=
  if bool_decide (ticker = "BAD"%string) then
    TickerData (Raise ProviderError)
               (Ok {[ "sharesOutstanding"%string := PyNum 1 ]})
  else if bool_decide (ticker = "STR"%string) then
    TickerData (Ok [100; 110]%float)
               (Ok {[ "sharesOutstanding"%string := PyStr "n/a" ]})
  else yf_two_closes ticker.

(** A provider without any share count. *)
Definition yf_no_shares (ticker : string) : ticker_data :=
  TickerData (Ok [100; 110]%float) (Ok ∅).

(** Eighteen tickers. *)
Definition eighteen_tickers : list string :=
  ["T00"; "T01"; "T02"; "T03"; "T04"; "T05"; "T06"; "T07"; "T08"; "T09";
   "T10"; "T11"; "T12"; "T13"; "T14"; "T15"; "T16"; "T17"]%string.

(** Position of a specification float in the order of [SFcompare], as a triple
    compared lexicographically; NaN is given the triple of zero and is never
    compared. *)
Definition SFrank (x : spec_float) : Z * Z * Z :=
  match x with
  | S754_infinity true => (-2, 0, 0)
  | S754_finite true m e => (-1, - e, - Z.pos m)
  | S754_zero _ | S754_nan => (0, 0, 0)
  | S754_finite false m e => (1, e, Z.pos m)
  | S754_infinity false => (2, 0, 0)
  end.

Definition lex_le (a b : Z * Z * Z) : Prop :=
  a.1.1 < b.1.1 \/
  (a.1.1 = b.1.1 /\ (a.1.2 < b.1.2 \/ (a.1.2 = b.1.2 /\ a.2 <= b.2))).

(** The sign bit of a specification float; NaN has none. *)
Definition SFsign (x : spec_float) : option bool :=
  match x with
  | S754_nan => None
  | S754_zero s | S754_infinity s | S754_finite s _ _ => Some s
  end.

(** A finite binary64 number other than zero (normal or subnormal). *)
Definition finite_nonzero (x : float) : bool :=
  match classify x with
  | PNormal | NNormal | PSubn | NSubn => true
  | _ => false
  end.

(** An array whose rows agree with its shape. *)
Definition well_shaped (a : ndarray) : Prop :=
  length (rows a) = shape0 a /\
  Forall (fun row => length row = shape1 a) (rows a).

(* ===================================================================== *)
(** ** Calendar dates ([datetime.date], [pd.Timestamp]) *)
(* ===================================================================== *)

(** A [datetime.date]. *)
Record date : Type := mkdate { year : Z; month : Z; day : Z }.

Definition is_leap (y : Z) : bool :=
  (y mod 4 =? 0) && (negb (y mod 100 =? 0) || (y mod 400 =? 0)).

(** Number of days before January 1st of year [y]. *)
Definition days_before_year (y : Z) : Z :=
  let y := y - 1 in y * 365 + y / 4 - y / 100 + y / 400.

Definition DAYS_IN_MONTH : list Z :=
  [-1; 31; 28; 31; 30; 31; 30; 31; 31; 30; 31; 30; 31].

Definition DAYS_BEFORE_MONTH : list Z :=
  [-1; 0; 31; 59; 90; 120; 151; 181; 212; 243; 273; 304; 334].

Definition days_in_month (y m : Z) : Z :=
  if (m =? 2) && is_leap y then 29
  else default 0 (DAYS_IN_MONTH !! Z.to_nat m).

Definition days_before_month (y m : Z) : Z :=
  default 0 (DAYS_BEFORE_MONTH !! Z.to_nat m)
  + (if (2 <? m) && is_leap y then 1 else 0).

(** The dates that [datetime.date] can hold. *)
Definition valid_date (d : date) : bool :=
  (1 <=? year d) && (year d <=? 9999) &&
  (1 <=? month d) && (month d <=? 12) &&
  (1 <=? day d) && (day d <=? days_in_month (year d) (month d)).

(** [d.toordinal()]: the proleptic Gregorian day number, 1 for 0001-01-01. *)
Definition toordinal (d : date) : Z :=
  days_before_year (year d) + days_before_month (year d) (month d) + day d.

(** A pandas timestamp is held as its number of nanoseconds since
    1970-01-01 00:00, the day of ordinal 719163.  [Timestamp_of_ordinal n] is
    the midnight that begins the day of ordinal [n], which is what
    [pd.Timestamp(d)] gives for a date [d]. *)
Definition Timestamp_of_ordinal (n : Z) : Z := (n - 719163) * 86400000000000.

Definition Timestamp (d : date) : Z := Timestamp_of_ordinal (toordinal d).

(* ===================================================================== *)
(** ** The price history ([data["history"]]) *)
(* ===================================================================== *)

(** One row of the history frame, with the three columns that the dashboard
    reads: the naive timestamp of the row, the closing price and the volume
    (held as the binary64 value that enters the product of line 215). *)
Record bar : Type := Bar { Date : Z; Close : float; Volume : float }.

(* ===================================================================== *)
(** ** Tab 1: the duration of the summary chart (lines 85-101) *)
(* ===================================================================== *)

(** The keys of [duration_options] (line 89), which are the choices of the
    select box of line 90. *)
Inductive duration : Type :=
  | D_1M | D_3M | D_6M | D_YTD | D_1Y | D_3Y | D_5Y | D_MAX.

(** The values of [duration_options]; [None] is Python's [None]. *)
Definition duration_options (d : duration) : option Z :=
  match d with
  | D_1M => Some 30
  | D_3M => Some 90
  | D_6M => Some 180
  | D_YTD => None
  | D_1Y => Some 365
  | D_3Y => Some 1095
  | D_5Y => Some 1825
  | D_MAX => None
  end.

(** [stock_data['Date'].min()]: [None] stands for [NaT], the minimum of an
    empty column. *)
Definition Date_min (stock_data : list bar) : option Z :=
  match Date <$> stock_data with
  | [] => None
  | d :: ds => Some (foldr Z.min d ds)
  end.

(** Lines 93-98, followed by the conversion [pd.Timestamp(start_date)] of
    line 101.  [date.today() - pd.Timedelta(days=n)] is the date [n] days
    before today (for a day number that stays positive, as it does for every
    date after year 5). *)
Definition tab1_start_date (today : date) (stock_data : list bar)
    (selected_duration : duration) : option Z :=
  match selected_duration with
  | D_YTD => Some (Timestamp (mkdate (year today) 1 1))
  | _ =>
      match duration_options selected_duration with
      | Some days => Some (Timestamp_of_ordinal (toordinal today - days))
      | None => Date_min stock_data
      end
  end.

(** Line 101: [stock_data[stock_data['Date'] >= pd.Timestamp(start_date)]].
    A comparison with [NaT] is false for every row. *)
Definition tab1_filtered_data (today : date) (stock_data : list bar)
    (selected_duration : duration) : list bar :=
  match tab1_start_date today stock_data selected_duration with
  | Some start_date => filter (fun b => start_date <= Date b) stock_data
  | None => []
  end.

(* ===================================================================== *)
(** ** Tab 2: the price and volume chart (lines 162-219) *)
(* ===================================================================== *)

(** Line 173: the rows whose timestamp lies between the two selected dates,
    both taken at midnight. *)
Definition tab2_filtered_data (stock_data : list bar)
    (start_date end_date : date) : list bar :=
  filter (fun b => Timestamp start_date <= Date b /\ Date b <= Timestamp end_date)
    stock_data.

(** The two colours of the volume bars. *)
Inductive colour : Type := red | green.

(** Line 193: [np.where(filtered_data['Close'].pct_change() < 0, 'red',
    'green')]. *)
Definition marker_color (close : list float) : list colour :=
  (fun change => if (change <? 0)%float then red else green) <$> pct_change close.

(** Python's built-in [max] on an iterable of floats: [ValueError] when it is
    empty; otherwise the first item is kept until an item compares greater
    than it. *)
Definition py_max (xs : list float) : result float :=
  match xs with
  | [] => Raise ValueError
  | x :: xs' => Ok (foldl (fun m y => if (m <? y)%float then y else m) x xs')
  end.

(** Line 215: [max(filtered_data['Volume'] * 1.2)], the upper end of the
    volume axis.  The literal [1.2] is the binary64 number nearest to it. *)
Definition volume_axis_max (volume : list float) : result float :=
  py_max ((fun v => (v * 0x1.3333333333333p+0)%float) <$> volume).

(** What tab 2 hands to the chart. *)
Record chart : Type := Chart {
  chart_rows : list bar;
  chart_colors : list colour;
  volume_range : float
}.

Definition tab2 (stock_data : list bar) (start_date end_date : date)
    : result chart :=
  let filtered_data := tab2_filtered_data stock_data start_date end_date in
  let colors := marker_color (Close <$> filtered_data) in
  top ← volume_axis_max (Volume <$> filtered_data);
  mret (Chart filtered_data colors top).

(** Tabs 2 to 4 in the order in which the script runs them (lines 162-247).
    An exception that escapes a tab ends the run of the script, so the later
    tabs are not computed.  Tab 4 reads the [filtered_data] that tab 2 left.
    [tab3] is the outcome of tab 3, which reads neither. *)
Definition tabs_2_to_4 (stock_data : list bar) (start_date end_date : date)
    (tab3 : result unit) (num_simulations time_horizon : Z)
    : M (chart * ndarray) :=
  c ← lift (tab2 stock_data start_date end_date);
  _ ← lift tab3;
  simulations ← tab4 (Close <$> chart_rows c) num_simulations time_horizon;
  mret (c, simulations).

(* ===================================================================== *)
(** ** Tab 5: the tickers of a sector (lines 254-261) *)
(* ===================================================================== *)

(** One row of the table of constituents, with the two columns that tab 5
    reads. *)
Record constituent : Type :=
  Constituent { Symbol : string; GICS_Sector : string }.

(** [Series.unique()]: the distinct values in the order of their first
    appearance.  [seen] holds the values met so far. *)
Fixpoint unique_from (seen l : list string) : list string :=
  match l with
  | [] => []
  | x :: l' =>
      if decide (x ∈ seen) then unique_from seen l'
      else x :: unique_from (x :: seen) l'
  end.

Definition unique (l : list string) : list string := unique_from [] l.

(** Line 255. *)
Definition available_industries (sp500_data : list constituent) : list string :=
  unique (GICS_Sector <$> sp500_data).

(** Line 261. *)
Definition industry_tickers (sp500_data : list constituent)
    (selected_industry : string) : list string :=
  Symbol <$> filter (fun c => GICS_Sector c = selected_industry) sp500_data.

(* ===================================================================== *)
(** ** The session and the cache (lines 27-57) *)
(* ===================================================================== *)

(** What the session state holds under its two keys. *)
Inductive session_value (D : Type) : Type :=
  | SNone
  | SData (d : D)
  | STicker (ticker : string).
Arguments SNone {D}.
Arguments SData {D} d.
Arguments STicker {D} ticker.

(** What persists between two runs of the script: the entries memoised by
    [st.cache_data] for [get_serializable_stock_data], keyed by the ticker,
    and the session state. *)
Record app_state (D : Type) : Type := App {
  cache : gmap string D;
  session_state : gmap string (session_value D)
}.
Arguments App {D} cache session_state.
Arguments cache {D} a.
Arguments session_state {D} a.

(** What one run of the script shows: nothing below the side bar, or the
    tabs, whose header names [selected_ticker] (line 64) and which display
    [data] and [stock]. *)
Inductive page (D : Type) : Type :=
  | Blank
  | Tabs (selected_ticker : string) (data : D) (stock : session_value D).
Arguments Blank {D}.
Arguments Tabs {D} selected_ticker data stock.

(** [get_serializable_stock_data(ticker)] under [st.cache_data]: the body
    ([fetch]) runs only when the cache has no entry for the ticker, and its
    result is then stored; an exception stores nothing. *)
Definition get_serializable_stock_data {D : Type} (fetch : string -> result D)
    (ticker : string) (c : gmap string D) : result (D * gmap string D) :=
  match c !! ticker with
  | Some d => Ok (d, c)
  | None => d ← fetch ticker; mret (d, <[ticker := d]> c)
  end.

(** Lines 47-48: the key ["data"] is given the value [None] when the session
    has none. *)
Definition with_data_key {D : Type} (a : app_state D) : gmap string (session_value D) :=
  match session_state a !! "data"%string with
  | None => <["data"%string := SNone]> (session_state a)
  | Some _ => session_state a
  end.

(** Lines 47-57: one run of the script, for the ticker selected in the side
    bar and for whether the run was triggered by the button "Update Data".
    The test of line 55 is true for the dictionary built on lines 32-40,
    which has three keys, and false for [None].  The state that persists is
    returned together with the page, or with the exception that ended the
    run. *)
Definition run {D : Type} (fetch : string -> result D)
    (selected_ticker : string) (update : bool) (a : app_state D)
    : app_state D * result (page D) :=
  let ss := with_data_key a in
  let after_button :=
    if update then
      match get_serializable_stock_data fetch selected_ticker (cache a) with
      | Ok (d, c) =>
          Ok (App c (<["ticker"%string := STicker selected_ticker]>
                       (<["data"%string := SData d]> ss)))
      | Raise e => Raise e
      end
    else Ok (App (cache a) ss) in
  match after_button with
  | Raise e => (App (cache a) ss, Raise e)
  | Ok a' =>
      match session_state a' !! "data"%string with
      | Some (SData d) =>
          (a', Ok (Tabs selected_ticker d
                     (default SNone (session_state a' !! "ticker"%string))))
      | _ => (a', Ok Blank)
      end
  end.

(** A user interaction: the ticker selected, whether the button was pressed,
    and what the provider would answer at that moment. *)
Record interaction (D : Type) : Type := Interaction {
  provider : string -> result D;
  selection : string;
  pressed : bool
}.
Arguments Interaction {D} provider selection pressed.
Arguments provider {D} i.
Arguments selection {D} i.
Arguments pressed {D} i.

(** The state after a sequence of runs, from a fresh session and an empty
    cache. *)
Definition fresh {D : Type} : app_state D := App ∅ ∅.

Definition after {D : Type} (events : list (interaction D)) : app_state D :=
  foldl (fun a i => (run (provider i) (selection i) (pressed i) a).1) fresh events.

(* ===================================================================== *)
(** * Properties *)
(* ===================================================================== *)

(** ** The two monads *)

Lemma bind_Ok {A B : Type} (m : M A) (k : A -> M B) (g g' : rng) (a : A) :
  m g = Ok (a, g') -> (m ≫= k) g = k a g'.
Proof. unfold mbind, M_bind. intros ->. reflexivity. Qed.

Lemma bind_Raise {A B : Type} (m : M A) (k : A -> M B) (g : rng) (e : exn) :
  m g = Raise e -> (m ≫= k) g = Raise e.
Proof. unfold mbind, M_bind. intros ->. reflexivity. Qed.

Lemma lift_Ok {A : Type} (r : result A) (a : A) (g : rng) :
  r = Ok a -> lift r g = Ok (a, g).
Proof. intros ->. reflexivity. Qed.

Lemma lift_Raise {A : Type} (r : result A) (e : exn) (g : rng) :
  r = Raise e -> lift r g = Raise e.
Proof. intros ->. reflexivity. Qed.

(** ** Indexing *)

Lemma iloc_last {A : Type} (s : list A) (x : A) : iloc (s ++ [x]) (-1) = Ok x.
Proof.
  unfold iloc. rewrite length_app. simpl length.
  replace (-1 <? 0) with true by reflexivity.
  destruct (Z.ltb_spec (Z.of_nat (length s + 1) + -1) 0) as [Hlt|_]; [lia|].
  destruct (Z.leb_spec (Z.of_nat (length s + 1)) (Z.of_nat (length s + 1) + -1))
    as [Hle|_]; [lia|].
  simpl orb. cbv iota.
  replace (Z.to_nat (Z.of_nat (length s + 1) + -1)) with (length s) by lia.
  rewrite lookup_app_r by lia. rewrite Nat.sub_diag. reflexivity.
Qed.

Lemma iloc_last_nonempty {A : Type} (s : list A) :
  s <> [] -> exists x, last s = Some x /\ iloc s (-1) = Ok x.
Proof.
  intros Hne. destruct (exists_last Hne) as (s' & x & ->).
  exists x. split; [apply last_snoc | apply iloc_last].
Qed.

Lemma iloc_nil {A : Type} (k : Z) : iloc (@nil A) k = Raise IndexError.
Proof.
  unfold iloc. change (Z.of_nat (length (@nil A))) with 0.
  destruct (Z.ltb_spec k 0) as [Hk|Hk].
  - destruct (Z.ltb_spec (0 + k) 0); [reflexivity | lia].
  - destruct (Z.ltb_spec k 0); [lia|].
    destruct (Z.leb_spec 0 k); [reflexivity | lia].
Qed.

(** [s.iloc[-k]] with [1 <= k <= len(s)] is the entry [len(s) - k]. *)
Lemma iloc_from_end {A : Type} (s : list A) (k : nat) :
  (1 <= k <= length s)%nat ->
  exists x, s !! (length s - k)%nat = Some x /\ iloc s (- Z.of_nat k) = Ok x.
Proof.
  intros Hk. unfold iloc.
  destruct (Z.ltb_spec (- Z.of_nat k) 0) as [_|Hge]; [|lia].
  destruct (Z.ltb_spec (Z.of_nat (length s) + - Z.of_nat k) 0) as [Hlt|_]; [lia|].
  destruct (Z.leb_spec (Z.of_nat (length s))
              (Z.of_nat (length s) + - Z.of_nat k)) as [Hle|_]; [lia|].
  simpl orb. cbv iota.
  replace (Z.to_nat (Z.of_nat (length s) + - Z.of_nat k))
    with (length s - k)%nat by lia.
  destruct (lookup_lt_is_Some_2 s (length s - k)%nat) as [x Hx]; [lia|].
  exists x. rewrite Hx. split; reflexivity.
Qed.

(** ** Loops *)

(** Invariant rule for [for_each]: an invariant indexed by the number of
    passes made, kept by a body that never raises, holds at the end and the
    loop does not raise. *)
Lemma for_each_invariant {A S : Type} (I : nat -> S -> Prop) (xs : list A)
    (body : A -> S -> M S) (s : S) (g : rng) :
  I 0%nat s ->
  (forall k x s g, xs !! k = Some x -> I k s ->
     exists s' g', body x s g = Ok (s', g') /\ I (Datatypes.S k) s') ->
  exists s' g', for_each xs body s g = Ok (s', g') /\ I (length xs) s'.
Proof.
  revert I s g. induction xs as [|x xs IH]; intros I s g H0 Hstep.
  - exists s, g. split; [reflexivity | exact H0].
  - destruct (Hstep 0%nat x s g eq_refl H0) as (s1 & g1 & Hbody & H1).
    destruct (IH (fun k => I (Datatypes.S k)) s1 g1 H1) as (s' & g' & Hrun & Hend).
    { intros k y t h Hy Ht. exact (Hstep (Datatypes.S k) y t h Hy Ht). }
    exists s', g'. split; [|exact Hend].
    simpl for_each. rewrite (bind_Ok _ _ _ _ _ Hbody). exact Hrun.
Qed.

Lemma length_range (n : Z) : length (range n) = Z.to_nat n.
Proof. unfold range. apply length_seq. Qed.

Lemma lookup_range (n : Z) (k x : nat) : range n !! k = Some x -> x = k /\ (k < Z.to_nat n)%nat.
Proof. unfold range. intros H. apply lookup_seq in H. lia. Qed.

(** ** Random draws *)

Lemma np_random_choice_nonempty (returns : list float) (g : rng) :
  returns <> [] ->
  exists r, r ∈ returns /\
            np_random_choice returns g = Ok (r, Rng (tape g) (S (used g))).
Proof.
  intros Hne. unfold np_random_choice.
  assert (Hlen : (0 < length returns)%nat).
  { destruct returns; [congruence | simpl; lia]. }
  destruct (lookup_lt_is_Some_2 returns (tape g (used g) mod length returns)%nat)
    as [r Hr].
  { apply Nat.mod_upper_bound. lia. }
  exists r. rewrite Hr. split; [|reflexivity].
  apply list_elem_of_lookup. eauto.
Qed.

Lemma np_random_choice_empty (g : rng) : np_random_choice [] g = Raise ValueError.
Proof. reflexivity. Qed.

(** ** One simulated path *)

Lemma bootstrap_path_singleton (returns : list float) (p0 : float) :
  bootstrap_path returns p0 [p0].
Proof.
  split; [reflexivity|]. intros t a b _ Hb.
  destruct t; discriminate Hb.
Qed.

Lemma bootstrap_path_snoc (returns prices : list float) (p0 p r : float) :
  bootstrap_path returns p0 prices -> last prices = Some p -> r ∈ returns ->
  bootstrap_path returns p0 (prices ++ [(p * (1 + r))%float]).
Proof.
  intros [Hhd Hstep] Hlast Hr. split.
  - rewrite lookup_app_l; [exact Hhd|]. apply lookup_lt_Some in Hhd. exact Hhd.
  - intros t a b Ha Hb.
    destruct (decide (S t < length prices)%nat) as [Hlt|Hge].
    + rewrite lookup_app_l in Ha by lia. rewrite lookup_app_l in Hb by lia.
      eauto.
    + assert (Ht : S t = length prices).
      { apply lookup_lt_Some in Hb. rewrite length_app in Hb. simpl in Hb. lia. }
      rewrite lookup_app_l in Ha by lia.
      rewrite lookup_app_r in Hb by lia.
      rewrite Ht, Nat.sub_diag in Hb. injection Hb as <-.
      rewrite last_lookup in Hlast.
      replace (pred (length prices)) with t in Hlast by lia.
      assert (a = p) as -> by congruence.
      exists r. split; [exact Hr | reflexivity].
Qed.

Lemma append_price_Ok (returns prices : list float) (p0 : float) (g : rng) :
  returns <> [] -> prices <> [] -> bootstrap_path returns p0 prices ->
  exists prices' g',
    append_price returns prices g = Ok (prices', g') /\
    length prices' = S (length prices) /\
    bootstrap_path returns p0 prices'.
Proof.
  intros Hret Hne Hpath.
  destruct (iloc_last_nonempty prices Hne) as (p & Hlast & Hiloc).
  destruct (np_random_choice_nonempty returns g Hret) as (r & Hr & Hdraw).
  exists (prices ++ [(p * (1 + r))%float]), (Rng (tape g) (S (used g))).
  split; [|split].
  - unfold append_price.
    rewrite (bind_Ok _ _ g g p) by (apply lift_Ok; exact Hiloc).
    rewrite (bind_Ok _ _ _ _ _ Hdraw). reflexivity.
  - rewrite length_app. simpl. lia.
  - apply bootstrap_path_snoc; assumption.
Qed.

Lemma simulate_path_Ok (returns : list float) (last_price : float)
    (time_horizon : Z) (g : rng) :
  returns <> [] ->
  exists prices g',
    simulate_path returns last_price time_horizon g = Ok (prices, g') /\
    length prices = S (Z.to_nat (time_horizon - 1)) /\
    bootstrap_path returns last_price prices.
Proof.
  intros Hret. unfold simulate_path.
  destruct (for_each_invariant
              (fun k prices => length prices = S k /\
                               bootstrap_path returns last_price prices)
              (range (time_horizon - 1))
              (fun _ prices => append_price returns prices)
              [last_price] g) as (prices & g' & Hrun & Hlen & Hpath).
  - split; [reflexivity | apply bootstrap_path_singleton].
  - intros k x s h _ [Hlen Hpath].
    destruct (append_price_Ok returns s last_price h Hret) as (s' & h' & Hs' & Hl & Hp).
    + intros ->. discriminate Hlen.
    + exact Hpath.
    + exists s', h'. split; [exact Hs'|]. split; [lia | exact Hp].
  - exists prices, g'. rewrite length_range in Hlen. auto.
Qed.

(** ** The [simulations] array *)

Lemma np_zeros_Ok (h m : Z) :
  0 <= h -> 0 <= m ->
  exists a, np_zeros h m = Ok a /\ well_shaped a /\
            shape0 a = Z.to_nat h /\ shape1 a = Z.to_nat m.
Proof.
  intros Hh Hm. unfold np_zeros.
  destruct (Z.ltb_spec h 0); [lia|]. destruct (Z.ltb_spec m 0); [lia|].
  eexists. split; [reflexivity|]. split; [|split; reflexivity].
  split; simpl.
  - apply length_replicate.
  - apply Forall_replicate. apply length_replicate.
Qed.

Lemma np_zeros_negative (h m : Z) :
  h < 0 \/ m < 0 -> np_zeros h m = Raise ValueError.
Proof.
  intros Hneg. unfold np_zeros.
  destruct (Z.ltb_spec h 0); [reflexivity|].
  destruct (Z.ltb_spec m 0); [reflexivity | lia].
Qed.

Lemma omap_lookup_set_eq (i : nat) (rs : list (list float)) (v : list float) :
  length v = length rs -> Forall (fun row => (i < length row)%nat) rs ->
  omap (fun row => row !! i) (zip_with (fun row x => <[i:=x]> row) rs v) = v.
Proof.
  revert v. induction rs as [|row rs IH]; intros [|x v] Hlen Hrows;
    try discriminate Hlen; [reflexivity|].
  apply Forall_cons in Hrows as [Hrow Hrows].
  simpl. rewrite list_lookup_insert_eq by exact Hrow. simpl.
  f_equal. apply IH; [simpl in Hlen; lia | exact Hrows].
Qed.

Lemma omap_lookup_set_ne (i j : nat) (rs : list (list float)) (v : list float) :
  i <> j -> length v = length rs ->
  omap (fun row => row !! j) (zip_with (fun row x => <[i:=x]> row) rs v)
  = omap (fun row => row !! j) rs.
Proof.
  intros Hij. revert v. induction rs as [|row rs IH]; intros [|x v] Hlen;
    try discriminate Hlen; [reflexivity|].
  simpl. rewrite list_lookup_insert_ne by exact Hij.
  rewrite IH by (simpl in Hlen; lia). reflexivity.
Qed.

Lemma set_column_Ok (a : ndarray) (i : nat) (v : list float) :
  well_shaped a -> (i < shape1 a)%nat -> length v = shape0 a ->
  exists a', set_column a i v = Ok a' /\ well_shaped a' /\
             shape0 a' = shape0 a /\ shape1 a' = shape1 a /\
             column a' i = v /\
             (forall j, j <> i -> column a' j = column a j).
Proof.
  intros [Hrows Hcols] Hi Hv. unfold set_column.
  destruct (decide (shape1 a <= i)%nat) as [Hle|_]; [lia|].
  destruct (decide (length v = shape0 a)) as [_|Hne]; [|contradiction].
  eexists. split; [reflexivity|].
  split; [|split; [reflexivity|split; [reflexivity|split]]].
  - split; simpl.
    + rewrite length_zip_with. lia.
    + clear Hrows Hv. revert v.
      induction Hcols as [|row rs Hrow _ IH]; intros [|x v]; simpl;
        try apply Forall_nil_2.
      apply Forall_cons. split; [rewrite length_insert; exact Hrow | apply IH].
  - unfold column. simpl. apply omap_lookup_set_eq; [lia|].
    eapply Forall_impl; [exact Hcols|]. simpl. intros row ->. exact Hi.
  - intros j Hj. unfold column. simpl.
    apply omap_lookup_set_ne; [congruence | lia].
Qed.

(** ** All simulated paths *)

Lemma simulate_paths_Ok (returns : list float) (last_price : float)
    (time_horizon num_simulations : Z) (g : rng) :
  returns <> [] -> 1 <= time_horizon -> 0 <= num_simulations ->
  exists simulations g',
    simulate_paths returns last_price time_horizon num_simulations g
      = Ok (simulations, g') /\
    shape0 simulations = Z.to_nat time_horizon /\
    shape1 simulations = Z.to_nat num_simulations /\
    forall i, (i < Z.to_nat num_simulations)%nat ->
      length (column simulations i) = Z.to_nat time_horizon /\
      bootstrap_path returns last_price (column simulations i).
Proof.
  intros Hret Hh Hm. unfold simulate_paths.
  destruct (np_zeros_Ok time_horizon num_simulations) as (a0 & Hz & Hws & Hs0 & Hs1);
    [lia | lia |].
  rewrite (bind_Ok _ _ g g a0) by (apply lift_Ok; exact Hz).
  destruct (for_each_invariant
    (fun k a => well_shaped a /\ shape0 a = Z.to_nat time_horizon /\
                shape1 a = Z.to_nat num_simulations /\
                forall i, (i < k)%nat ->
                  length (column a i) = Z.to_nat time_horizon /\
                  bootstrap_path returns last_price (column a i))
    (range num_simulations)
    (fun i simulations =>
       prices ← simulate_path returns last_price time_horizon;
       lift (set_column simulations i prices))
    a0 g) as (a & g' & Hrun & _ & Ha0 & Ha1 & Hcols).
  - split; [exact Hws|]. split; [exact Hs0|]. split; [exact Hs1|].
    intros i Hi. lia.
  - intros k x a h Hx (Hwa & Ha0 & Ha1 & Hcols).
    apply lookup_range in Hx as [-> Hk].
    destruct (simulate_path_Ok returns last_price time_horizon h Hret)
      as (prices & h' & Hp & Hlen & Hpath).
    destruct (set_column_Ok a k prices Hwa) as (a' & Hset & Hwa' & Hb0 & Hb1 & Hki & Hkj);
      [lia | lia |].
    exists a', h'. split.
    + rewrite (bind_Ok _ _ _ _ _ Hp). apply lift_Ok. exact Hset.
    + split; [exact Hwa'|]. split; [lia|]. split; [lia|].
      intros i Hi. destruct (decide (i = k)) as [->|Hne].
      * rewrite Hki. split; [lia | exact Hpath].
      * rewrite (Hkj i Hne). apply Hcols. lia.
  - exists a, g'. rewrite length_range in Hcols. auto.
Qed.

(** ** binary64 facts

    The primitive operations are related to their IEEE 754 specification
    ([spec_float]) by the specification lemmas of the standard library. *)

Lemma SFcompare_refl (x : spec_float) :
  x <> S754_nan -> SFcompare x x = Some Eq.
Proof.
  destruct x as [s|s| |s m e]; intros Hx; try congruence; simpl.
  - reflexivity.
  - destruct s; reflexivity.
  - rewrite Z.compare_refl, Pos.compare_cont_refl. destruct s; reflexivity.
Qed.

Lemma is_nan_spec (x : float) : is_nan x = true <-> Prim2SF x = S754_nan.
Proof.
  unfold is_nan. rewrite FloatAxioms.eqb_spec. unfold SFeqb.
  destruct (Prim2SF x) as [s|s| |s m e] eqn:Hx.
  all: try (rewrite SFcompare_refl by discriminate; simpl; split; discriminate).
  simpl. split; reflexivity.
Qed.

Lemma is_nan_false_spec (x : float) : is_nan x = false <-> Prim2SF x <> S754_nan.
Proof.
  rewrite <- is_nan_spec. destruct (is_nan x); split; congruence.
Qed.

Lemma Prim2SF_nan : Prim2SF nan = S754_nan.
Proof. reflexivity. Qed.

Lemma Prim2SF_one : Prim2SF 1 = S754_finite false 4503599627370496 (-52).
Proof. reflexivity. Qed.

(** A change computed against a missing (NaN) previous close is NaN. *)
Lemma pct_of_nan_is_nan (cur : float) : is_nan (cur / nan - 1)%float = true.
Proof.
  apply is_nan_spec. rewrite FloatAxioms.sub_spec, FloatAxioms.div_spec, Prim2SF_nan.
  destruct (Prim2SF cur); reflexivity.
Qed.

(** Rounding keeps the sign it is given, and a non-negative significand never
    rounds to NaN. *)
Lemma shr_1_nonneg (mrs : shr_record) : 0 <= shr_m mrs -> 0 <= shr_m (shr_1 mrs).
Proof.
  destruct mrs as [m r s]. simpl. intros Hm.
  destruct m as [|[p|p|]|p]; simpl; lia.
Qed.

Lemma iter_shr_1_nonneg (p : positive) (mrs : shr_record) :
  0 <= shr_m mrs -> 0 <= shr_m (SpecFloat.iter_pos shr_1 p mrs).
Proof.
  revert mrs. induction p as [p IH|p IH|]; intros mrs Hm; simpl.
  - apply IH, IH, shr_1_nonneg, Hm.
  - apply IH, IH, Hm.
  - apply shr_1_nonneg, Hm.
Qed.

Lemma shr_fexp_nonneg (m e : Z) (l : location) :
  0 <= m -> 0 <= shr_m (fst (shr_fexp prec emax m e l)).
Proof.
  intros Hm. unfold shr_fexp, shr.
  assert (H0 : 0 <= shr_m (shr_record_of_loc m l)).
  { destruct l as [|[]]; exact Hm. }
  destruct (fexp prec emax (Zdigits2 m + e) - e); simpl; try exact H0.
  apply iter_shr_1_nonneg, H0.
Qed.

Lemma round_nearest_even_nonneg (m : Z) (l : location) :
  0 <= m -> 0 <= round_nearest_even m l.
Proof.
  intros Hm. destruct l as [|[]]; simpl; try lia.
  destruct (Z.even m); lia.
Qed.

Lemma binary_round_aux_sign (s : bool) (m e : Z) (l : location) :
  SFsign (binary_round_aux prec emax s m e l) = None \/
  SFsign (binary_round_aux prec emax s m e l) = Some s.
Proof.
  unfold binary_round_aux.
  destruct (shr_fexp prec emax m e l) as [mrs' e'].
  destruct (shr_fexp prec emax _ e' loc_Exact) as [mrs'' e''].
  destruct (shr_m mrs''); [right; reflexivity| |left; reflexivity].
  destruct (e'' <=? emax - prec); right; reflexivity.
Qed.

Lemma binary_round_aux_nonneg (s : bool) (m e : Z) (l : location) :
  0 <= m -> SFsign (binary_round_aux prec emax s m e l) = Some s.
Proof.
  intros Hm. unfold binary_round_aux.
  pose proof (shr_fexp_nonneg m e l Hm) as H1.
  destruct (shr_fexp prec emax m e l) as [mrs' e']. simpl in H1.
  pose proof (shr_fexp_nonneg _ e' loc_Exact
                (round_nearest_even_nonneg _ (loc_of_shr_record mrs') H1)) as H2.
  destruct (shr_fexp prec emax _ e' loc_Exact) as [mrs'' e'']. simpl in H2.
  destruct (shr_m mrs''); [reflexivity| |lia].
  destruct (e'' <=? emax - prec); reflexivity.
Qed.

Lemma binary_round_sign (s : bool) (m : positive) (e : Z) :
  SFsign (binary_round prec emax s m e) = Some s.
Proof.
  unfold binary_round.
  destruct (shl_align m e _) as [mz ez].
  apply binary_round_aux_nonneg. lia.
Qed.

Lemma binary_normalize_sign (m e : Z) :
  SFsign (binary_normalize prec emax m e false) = Some (m <? 0).
Proof.
  destruct m; simpl; [reflexivity | apply binary_round_sign ..].
Qed.

Lemma SFsign_nan (x : spec_float) : SFsign x = None <-> x = S754_nan.
Proof. destruct x; simpl; split; congruence. Qed.

Lemma SFdiv_finite_sign (sx sy : bool) (mx my : positive) (ex ey : Z) :
  SFsign (SF64div (S754_finite sx mx ex) (S754_finite sy my ey))
  = Some (xorb sx sy).
Proof.
  unfold SF64div, SFdiv, SFdiv_core_binary.
  set (e' := Z.min _ _). set (sh := ex - ey - e').
  assert (Hm : 0 <= match sh with
                    | 0 => Z.pos mx
                    | Z.pos _ => Z.shiftl (Z.pos mx) sh
                    | Z.neg _ => 0
                    end).
  { destruct sh; try lia. apply Z.shiftl_nonneg. lia. }
  revert Hm. generalize (match sh with
                    | 0 => Z.pos mx
                    | Z.pos _ => Z.shiftl (Z.pos mx) sh
                    | Z.neg _ => 0
                    end). intros m' Hm.
  pose proof (Z.div_pos m' (Z.pos my) Hm ltac:(lia)) as Hq.
  unfold Z.div in Hq. destruct (Z.div_eucl m' (Z.pos my)) as [q r].
  apply binary_round_aux_nonneg. exact Hq.
Qed.

Lemma finite_nonzero_spec (x : float) :
  finite_nonzero x = true -> exists s m e, Prim2SF x = S754_finite s m e.
Proof.
  unfold finite_nonzero. rewrite classify_spec. unfold SF64classify, SFclassify.
  destruct (Prim2SF x) as [[]|[]| |[] m e]; try discriminate; eauto.
Qed.

Lemma finite_nonzero_not_nan (x : float) :
  finite_nonzero x = true -> is_nan x = false.
Proof.
  intros Hx. apply is_nan_false_spec.
  destruct (finite_nonzero_spec x Hx) as (s & m & e & ->). discriminate.
Qed.

Lemma SFsub_finite_not_nan (x : spec_float) (s : bool) (m : positive) (e : Z) :
  x <> S754_nan -> SF64sub x (S754_finite s m e) <> S754_nan.
Proof.
  intros Hx. destruct x as [sx|sx| |sx mx ex]; try congruence; simpl;
    try discriminate.
  intros Hnan. apply SFsign_nan in Hnan.
  rewrite binary_normalize_sign in Hnan. discriminate.
Qed.

(** The percentage change between two finite non-zero closes is never NaN (it
    may be infinite, by overflow of the quotient). *)
Lemma pct_finite_not_nan (cur prev : float) :
  finite_nonzero cur = true -> finite_nonzero prev = true ->
  is_nan (cur / prev - 1)%float = false.
Proof.
  intros Hc Hp. apply is_nan_false_spec.
  rewrite FloatAxioms.sub_spec, FloatAxioms.div_spec, Prim2SF_one.
  destruct (finite_nonzero_spec cur Hc) as (sc & mc & ec & ->).
  destruct (finite_nonzero_spec prev Hp) as (sp & mp & ep & ->).
  apply SFsub_finite_not_nan. intros Hnan. apply SFsign_nan in Hnan.
  rewrite SFdiv_finite_sign in Hnan. discriminate.
Qed.

(** ** The return sample *)

(** The first entry of [pct_change] is computed against NaN; the others are the
    changes between consecutive closes. *)
Lemma pct_change_cons (x : float) (s : list float) :
  pct_change (x :: s)
  = (x / nan - 1)%float
    :: zip_with (fun cur prev => (cur / prev - 1)%float) s (x :: s).
Proof.
  unfold pct_change, shift1. simpl. f_equal.
  generalize x. induction s as [|z s IH]; intros p; simpl; [reflexivity|].
  f_equal. apply IH.
Qed.

Lemma sample_returns_cons (x : float) (s : list float) :
  sample_returns (x :: s)
  = dropna (zip_with (fun cur prev => (cur / prev - 1)%float) s (x :: s)).
Proof.
  unfold sample_returns. rewrite pct_change_cons.
  unfold dropna. rewrite filter_cons_False; [reflexivity|].
  rewrite pct_of_nan_is_nan. discriminate.
Qed.

(** The sample is made of the changes between consecutive closes, without
    those that are NaN. *)
Lemma sample_returns_changes (close : list float) :
  sample_returns close
  = dropna (zip_with (fun cur prev => (cur / prev - 1)%float)
              (tail close) close).
Proof.
  destruct close as [|x s]; [reflexivity | apply sample_returns_cons].
Qed.

Lemma sample_returns_short (close : list float) :
  (length close < 2)%nat -> sample_returns close = [].
Proof.
  destruct close as [|x [|y s]]; simpl; intros Hlen; try lia.
  - reflexivity.
  - rewrite sample_returns_cons. reflexivity.
Qed.

Lemma length_sample_returns_le (close : list float) :
  (length (sample_returns close) <= length close - 1)%nat.
Proof.
  destruct close as [|x s]; [simpl; lia|].
  rewrite sample_returns_cons. unfold dropna.
  etrans; [apply length_filter|].
  rewrite length_zip_with. simpl. lia.
Qed.

Lemma changes_not_nan (x : float) (s : list float) :
  finite_nonzero x = true -> Forall (fun c => finite_nonzero c = true) s ->
  Forall (fun r => is_nan r = false)
    (zip_with (fun cur prev => (cur / prev - 1)%float) s (x :: s)).
Proof.
  intros Hx Hs. revert x Hx. induction Hs as [|c s Hc _ IH]; intros x Hx; simpl.
  - apply Forall_nil_2.
  - apply Forall_cons. split; [apply pct_finite_not_nan; assumption | apply IH, Hc].
Qed.

Lemma dropna_id (s : list float) :
  Forall (fun x => is_nan x = false) s -> dropna s = s.
Proof.
  unfold dropna. induction 1 as [|x s Hx _ IH]; [reflexivity|].
  rewrite filter_cons_True by exact Hx. f_equal. exact IH.
Qed.

(** ** Failures of the simulation *)

Lemma range_cons (n : Z) : 1 <= n -> exists xs, range n = 0%nat :: xs.
Proof.
  intros Hn. unfold range.
  destruct (Z.to_nat n) as [|k] eqn:Hk; [lia|].
  exists (seq 1 k). reflexivity.
Qed.

Lemma for_each_first_Raise {A S : Type} (x : A) (xs : list A)
    (body : A -> S -> M S) (s : S) (g : rng) (e : exn) :
  body x s g = Raise e -> for_each (x :: xs) body s g = Raise e.
Proof. intros Hb. simpl. apply bind_Raise. exact Hb. Qed.

Lemma append_price_empty_sample (p : float) (g : rng) :
  append_price [] [p] g = Raise ValueError.
Proof. reflexivity. Qed.

Lemma simulate_path_empty_sample (last_price : float) (time_horizon : Z) (g : rng) :
  2 <= time_horizon ->
  simulate_path [] last_price time_horizon g = Raise ValueError.
Proof.
  intros Hh. unfold simulate_path.
  destruct (range_cons (time_horizon - 1)) as [xs ->]; [lia|].
  apply for_each_first_Raise. apply append_price_empty_sample.
Qed.

Lemma simulate_paths_empty_sample (last_price : float)
    (time_horizon num_simulations : Z) (g : rng) :
  2 <= time_horizon -> 1 <= num_simulations ->
  simulate_paths [] last_price time_horizon num_simulations g = Raise ValueError.
Proof.
  intros Hh Hm. unfold simulate_paths.
  destruct (np_zeros_Ok time_horizon num_simulations) as (a0 & Hz & _); [lia|lia|].
  rewrite (bind_Ok _ _ g g a0) by (apply lift_Ok; exact Hz).
  destruct (range_cons num_simulations Hm) as [xs ->].
  apply for_each_first_Raise. apply bind_Raise.
  apply simulate_path_empty_sample. exact Hh.
Qed.

Lemma simulate_paths_negative (returns : list float) (last_price : float)
    (time_horizon num_simulations : Z) (g : rng) :
  time_horizon < 0 \/ num_simulations < 0 ->
  simulate_paths returns last_price time_horizon num_simulations g
  = Raise ValueError.
Proof.
  intros Hneg. unfold simulate_paths. apply bind_Raise, lift_Raise.
  apply np_zeros_negative. exact Hneg.
Qed.

Lemma offered_parameters_positive (time_horizon num_simulations : Z) :
  time_horizon ∈ time_horizon_options ->
  num_simulations ∈ num_simulations_options ->
  2 <= time_horizon /\ 1 <= num_simulations.
Proof.
  unfold time_horizon_options, num_simulations_options.
  rewrite !elem_of_cons, !elem_of_nil. lia.
Qed.

(** ** The claims about tab 4 *)

(** C3 (as stated, refuted): with an empty return sample and a horizon of one
    day no draw is made and the simulation returns normally; with zero
    simulations and any horizon the loop body never runs and an empty array is
    returned.  Neither an empty sample nor a non-positive parameter is
    rejected as such. *)
Lemma C3_counterexample :
  simulate_paths [] 100 1 1 (Rng (fun n => n) 0)
    = Ok (Ndarray 1 1 [[100%float]], Rng (fun n => n) 0) /\
  simulate_paths [0.5%float] 100 30 0 (Rng (fun n => n) 0)
    = Ok (Ndarray 30 0 (replicate 30 []), Rng (fun n => n) 0) /\
  simulate_paths [0.5%float] 100 0 2 (Rng (fun n => n) 0)
    = Ok (Ndarray 0 2 [], Rng (fun n => n) 0).
Proof. split; [|split]; reflexivity. Qed.

(** C3 (amended): the simulation fails, with numpy's [ValueError], when the
    return sample is empty and at least one draw is made (horizon at least 2
    and at least one simulation), and when the horizon or the number of
    simulations is negative.  The code has no check of its own on the
    parameters and no error classes of its own. *)
Theorem C3_simulation_failures (returns : list float) (last_price : float)
    (time_horizon num_simulations : Z) (g : rng) :
  (returns = [] /\ 2 <= time_horizon /\ 1 <= num_simulations) \/
  time_horizon < 0 \/ num_simulations < 0 ->
  simulate_paths returns last_price time_horizon num_simulations g
  = Raise ValueError.
Proof.
  intros [(-> & Hh & Hm)|Hneg].
  - apply simulate_paths_empty_sample; assumption.
  - apply simulate_paths_negative. exact Hneg.
Qed.

Lemma C3_witness :
  simulate_paths [] 100 30 200 (Rng (fun n => n) 0) = Raise ValueError.
Proof.
  apply C3_simulation_failures. left. split; [reflexivity | lia].
Defined.

(** C4: for a non-empty return sample, a horizon [H >= 1] and [M >= 1]
    simulations, the simulation returns normally, [M] paths are plotted, each
    has exactly [H] prices, starts at the starting price, and every later
    price is the one before it times [1 + r] for some [r] of the sample. *)
Theorem C4_simulated_paths (returns : list float) (last_price : float)
    (time_horizon num_simulations : Z) (g : rng) :
  returns <> [] -> 1 <= time_horizon -> 1 <= num_simulations ->
  exists simulations g',
    simulate_paths returns last_price time_horizon num_simulations g
      = Ok (simulations, g') /\
    length (plotted_paths simulations num_simulations)
      = Z.to_nat num_simulations /\
    Forall (fun prices => length prices = Z.to_nat time_horizon /\
                          bootstrap_path returns last_price prices)
      (plotted_paths simulations num_simulations).
Proof.
  intros Hret Hh Hm.
  destruct (simulate_paths_Ok returns last_price time_horizon num_simulations g)
    as (a & g' & Hrun & _ & _ & Hcols); [exact Hret | lia | lia |].
  exists a, g'. split; [exact Hrun|]. unfold plotted_paths. split.
  - rewrite length_fmap. apply length_range.
  - apply Forall_fmap, Forall_lookup. intros k i Hi.
    apply lookup_range in Hi as [-> Hk]. apply Hcols. exact Hk.
Qed.

Lemma C4_witness :
  exists simulations g',
    simulate_paths [0.5; -0.25]%float 100 3 2 (Rng (fun n => n) 0)
      = Ok (simulations, g') /\
    length (plotted_paths simulations 2) = Z.to_nat 2 /\
    Forall (fun prices => length prices = Z.to_nat 3 /\
                          bootstrap_path [0.5; -0.25]%float 100 prices)
      (plotted_paths simulations 2).
Proof. apply C4_simulated_paths; [discriminate | lia | lia]. Defined.

(** C5 (as stated, refuted): two closes of 0 give one change, 0/0 - 1, which is
    NaN and is dropped: the sample of this history of length 2 is empty.  A
    history of length 3 that starts with a missing (NaN) close yields one
    change, not two. *)
Lemma C5_counterexample :
  (2 <= length [0; 0]%float)%nat /\
  length (sample_returns [0; 0]%float) <> (length [0; 0]%float - 1)%nat /\
  (2 <= length [nan; 100; 101]%float)%nat /\
  length (sample_returns [nan; 100; 101]%float)
    <> (length [nan; 100; 101]%float - 1)%nat.
Proof. vm_compute. repeat split; try lia; discriminate. Qed.

(** C5 (amended): for a price history with [L >= 2] observations the sample
    is the list of the consecutive-close percentage changes
    [close[t] / close[t-1] - 1], [t = 1 .. L-1], in their order and without
    those that are NaN, hence at most [L - 1] of them; when every close is
    finite and non-zero it holds all of them, exactly [L - 1]. *)
Theorem C5_sample_length (close : list float) :
  (2 <= length close)%nat ->
  sample_returns close
    = filter (fun r => is_nan r = false)
        (zip_with (fun cur prev => (cur / prev - 1)%float) (tail close) close) /\
  (length (sample_returns close) <= length close - 1)%nat /\
  (Forall (fun c => finite_nonzero c = true) close ->
   sample_returns close
     = zip_with (fun cur prev => (cur / prev - 1)%float) (tail close) close /\
   length (sample_returns close) = (length close - 1)%nat).
Proof.
  intros _. split; [apply sample_returns_changes|].
  split; [apply length_sample_returns_le|].
  intros Hfin. destruct close as [|x s]; [split; reflexivity|].
  apply Forall_cons in Hfin as [Hx Hs].
  assert (Heq : sample_returns (x :: s)
                = zip_with (fun cur prev => (cur / prev - 1)%float) s (x :: s)).
  { rewrite sample_returns_cons.
    apply dropna_id, changes_not_nan; assumption. }
  split; [exact Heq|].
  rewrite Heq, length_zip_with. simpl. lia.
Qed.

Lemma C5_witness :
  sample_returns [100; nan; 110; 121]%float
    = filter (fun r => is_nan r = false)
        (zip_with (fun cur prev => (cur / prev - 1)%float)
           (tail [100; nan; 110; 121]%float) [100; nan; 110; 121]%float) /\
  (length (sample_returns [100; nan; 110; 121]%float)
   <= length [100; nan; 110; 121]%float - 1)%nat /\
  (Forall (fun c => finite_nonzero c = true) [100; nan; 110; 121]%float ->
   sample_returns [100; nan; 110; 121]%float
     = zip_with (fun cur prev => (cur / prev - 1)%float)
         (tail [100; nan; 110; 121]%float) [100; nan; 110; 121]%float /\
   length (sample_returns [100; nan; 110; 121]%float)
     = (length [100; nan; 110; 121]%float - 1)%nat).
Proof.
  apply (C5_sample_length [100; nan; 110; 121]%float). simpl. lia.
Defined.

(** C7 (as stated, refuted): on a history with a single observation line 234
    yields an empty sample and line 235 reads the last close; nothing is
    raised. *)
Lemma C7_counterexample :
  (length [100%float] < 2)%nat /\
  sample_returns [100%float] = [] /\
  tab4_inputs [100%float] = Ok ([], 100%float).
Proof. split; [simpl; lia|]. split; reflexivity. Qed.

(** C7 (amended): on a price history with fewer than 2 observations the return
    sampler does not fail, it yields an empty sample.  The tab fails later:
    with no observation at all, reading the last close raises [IndexError];
    with one observation, the first random draw raises [ValueError] (for a
    horizon of at least 2 and at least one simulation, as are all the values
    offered). *)
Theorem C7_short_history (close : list float)
    (num_simulations time_horizon : Z) (g : rng) :
  (length close < 2)%nat -> 2 <= time_horizon -> 1 <= num_simulations ->
  sample_returns close = [] /\
  tab4 close num_simulations time_horizon g
  = Raise (match close with [] => IndexError | _ => ValueError end).
Proof.
  intros Hlen Hh Hm. split; [apply sample_returns_short; exact Hlen|].
  destruct close as [|x [|y s]]; simpl in Hlen; try lia.
  - reflexivity.
  - unfold tab4.
    rewrite (bind_Ok _ _ g g ([], x)).
    + apply simulate_paths_empty_sample; assumption.
    + apply lift_Ok. unfold tab4_inputs.
      rewrite (sample_returns_short [x]) by (simpl; lia). reflexivity.
Qed.

Lemma C7_witness :
  sample_returns [100%float] = [] /\
  tab4 [100%float] 200 30 (Rng (fun n => n) 0) = Raise ValueError.
Proof. apply (C7_short_history [100%float] 200 30); [simpl; lia | lia | lia]. Defined.

(** ** Signs of the simulated prices *)

Lemma Prim2SF_zero : Prim2SF 0 = S754_zero false.
Proof. reflexivity. Qed.

Lemma Prim2SF_minus_one : Prim2SF (-1) = S754_finite true 4503599627370496 (-52).
Proof. reflexivity. Qed.

Lemma positive_sign (x : float) :
  (0 <? x)%float = true -> SFsign (Prim2SF x) = Some false.
Proof.
  rewrite FloatAxioms.ltb_spec, Prim2SF_zero. unfold SFltb.
  destruct (Prim2SF x) as [s|[]| |[] m e]; simpl; congruence.
Qed.

Lemma not_negative_ltb (x : float) :
  SFsign (Prim2SF x) = Some false \/ SFsign (Prim2SF x) = None ->
  (x <? 0)%float = false.
Proof.
  rewrite FloatAxioms.ltb_spec, Prim2SF_zero. unfold SFltb.
  destruct (Prim2SF x) as [s|[]| |[] m e]; simpl; intros [H|H]; congruence.
Qed.

Lemma SFmul_not_negative (x y : spec_float) :
  SFsign x = Some false \/ SFsign x = None ->
  SFsign y = Some false \/ SFsign y = None ->
  SFsign (SF64mul x y) = Some false \/ SFsign (SF64mul x y) = None.
Proof.
  intros Hx Hy.
  destruct x as [sx|sx| |sx mx ex]; destruct y as [sy|sy| |sy my ey];
    simpl in *; try (right; reflexivity);
    try (destruct Hx as [[= ->]|[=]]; destruct Hy as [[= ->]|[=]];
         left; reflexivity).
  destruct Hx as [[= ->]|[=]]. destruct Hy as [[= ->]|[=]].
  destruct (binary_round_aux_sign (xorb false false)
              (Z.pos (mx * my)) (ex + ey) loc_Exact) as [H|H]; auto.
Qed.

Lemma digits2_pos_bound (m : positive) : Z.pos m < 2 ^ Z.pos (digits2_pos m).
Proof.
  induction m as [m IH|m IH|]; simpl digits2_pos.
  - rewrite Pos2Z.inj_succ, Z.pow_succ_r by lia. lia.
  - rewrite Pos2Z.inj_succ, Z.pow_succ_r by lia. lia.
  - reflexivity.
Qed.

(** The significand of a valid binary64 number is below [2^53]. *)
Lemma valid_significand_bound (s : bool) (m : positive) (e : Z) :
  valid_binary (S754_finite s m e) = true -> Z.pos m < 2 ^ 53.
Proof.
  simpl. unfold bounded, canonical_mantissa, fexp.
  intros Hb. apply andb_prop in Hb as [Hc _]. apply Z.eqb_eq in Hc.
  pose proof (digits2_pos_bound m) as Hm.
  assert (Hd : Z.pos (digits2_pos m) <= 53) by (unfold prec in Hc; lia).
  eapply Z.lt_le_trans; [exact Hm|]. apply Z.pow_le_mono_r; lia.
Qed.

Lemma iter_xO_double (a d : positive) : 2 * Z.pos a <= Z.pos (Pos.iter xO a d).
Proof.
  induction d as [|d IH] using Pos.peano_ind.
  - simpl. lia.
  - rewrite Pos.iter_succ. lia.
Qed.

(** [1 + r] is not negative when [r > -1]. *)
Lemma one_plus_not_negative (r : float) :
  (-1 <? r)%float = true ->
  SFsign (Prim2SF (1 + r)) = Some false \/ SFsign (Prim2SF (1 + r)) = None.
Proof.
  rewrite FloatAxioms.ltb_spec, Prim2SF_minus_one, FloatAxioms.add_spec, Prim2SF_one.
  pose proof (Prim2SF_valid r) as Hvalid.
  unfold SFltb. destruct (Prim2SF r) as [s|s| |s m e]; cbn [SFcompare].
  - intros _. left. reflexivity.
  - destruct s; [discriminate|]. intros _. left. reflexivity.
  - discriminate.
  - intros Hcmp. left. unfold SF64add, SFadd.
    rewrite binary_normalize_sign. f_equal. apply Z.ltb_ge.
    destruct s; [|cbn [cond_Zopp]; lia].
    apply valid_significand_bound in Hvalid.
    change (2 ^ 53) with 9007199254740992 in Hvalid.
    destruct (Z.compare_spec (-52) e) as [<-|Hlt|Hgt]; try discriminate Hcmp.
    + destruct (Pos.compare_cont Eq 4503599627370496 m) eqn:Hm;
        try discriminate Hcmp.
      change ((4503599627370496 ?= m)%positive = Gt) in Hm.
      apply Pos.compare_gt_iff, Pos2Z.pos_lt_pos in Hm.
      change (Z.min (-52) (-52)) with (-52). unfold shl_align.
      rewrite Z.sub_diag. cbn [fst cond_Zopp]. clear Hcmp Hvalid. lia.
    + clear Hcmp. rewrite Z.min_r by lia. unfold shl_align. rewrite Z.sub_diag.
      destruct (e - -52) as [|d|d] eqn:Hd; try lia.
      cbn [fst cond_Zopp].
      pose proof (iter_xO_double 4503599627370496 d). lia.
Qed.

(** One step of a path: a price that is not negative stays so when multiplied
    by [1 + r] with [r > -1]. *)
Lemma step_not_negative (p r : float) :
  SFsign (Prim2SF p) = Some false \/ SFsign (Prim2SF p) = None ->
  (-1 <? r)%float = true ->
  SFsign (Prim2SF (p * (1 + r))) = Some false \/
  SFsign (Prim2SF (p * (1 + r))) = None.
Proof.
  intros Hp Hr. rewrite FloatAxioms.mul_spec.
  apply SFmul_not_negative; [exact Hp | apply one_plus_not_negative, Hr].
Qed.

Lemma bootstrap_path_not_negative (returns prices : list float) (p0 : float) :
  (0 <? p0)%float = true ->
  Forall (fun r => (-1 <? r)%float = true) returns ->
  bootstrap_path returns p0 prices ->
  forall t p, prices !! t = Some p ->
    SFsign (Prim2SF p) = Some false \/ SFsign (Prim2SF p) = None.
Proof.
  intros Hp0 Hret [Hhd Hstep] t.
  induction t as [|t IH]; intros p Hp.
  - left. apply positive_sign. congruence.
  - destruct (lookup_lt_is_Some_2 prices t) as [a Ha].
    { apply lookup_lt_Some in Hp. lia. }
    destruct (Hstep t a p Ha Hp) as (r & Hr & ->).
    apply step_not_negative; [apply IH, Ha|].
    rewrite Forall_forall in Hret. apply Hret, Hr.
Qed.

(** C10 (as stated, refuted): start at the price 1 with the return sample of
    the history [2^53, 1], whose only element is [2^-53 - 1 > -1].  Every step
    multiplies the price by [2^-53]; the 22nd price, [2^-1113], is below the
    smallest positive binary64 number and is rounded to 0, and the path stays
    at 0: these prices are not strictly positive. *)
Lemma C10_counterexample :
  let returns := sample_returns [9007199254740992; 1]%float in
  (0 <? 1)%float = true /\
  Forall (fun r => (-1 <? r)%float = true) returns /\
  exists simulations g' prices,
    simulate_paths returns 1 30 1 (Rng (fun n => n) 0) = Ok (simulations, g') /\
    prices ∈ plotted_paths simulations 1 /\
    prices !! 21%nat = Some 0%float /\
    (0 <? 0)%float = false.
Proof.
  split; [reflexivity|]. split; [repeat constructor|].
  eexists _, _, _. split; [vm_compute; reflexivity|].
  split; [apply list_elem_of_here|]. split; reflexivity.
Qed.

(** C10 (amended): if the starting price is strictly positive and every return
    [r] of the sample satisfies [r > -1], then no price of any simulated path
    is negative.  A price may be 0, by underflow of the product, so strict
    positivity is not an invariant of the step (and a price that reached 0 or
    infinity may turn into NaN, which is not negative either). *)
Theorem C10_prices_not_negative (returns : list float) (last_price : float)
    (time_horizon num_simulations : Z) (g : rng) :
  returns <> [] -> 1 <= time_horizon -> 1 <= num_simulations ->
  (0 <? last_price)%float = true ->
  Forall (fun r => (-1 <? r)%float = true) returns ->
  exists simulations g',
    simulate_paths returns last_price time_horizon num_simulations g
      = Ok (simulations, g') /\
    Forall (fun prices => Forall (fun p => (p <? 0)%float = false) prices)
      (plotted_paths simulations num_simulations).
Proof.
  intros Hne Hh Hm Hp0 Hret.
  destruct (simulate_paths_Ok returns last_price time_horizon num_simulations g)
    as (a & g' & Hrun & _ & _ & Hcols); [exact Hne | lia | lia |].
  exists a, g'. split; [exact Hrun|]. unfold plotted_paths.
  apply Forall_fmap, Forall_lookup. intros k i Hi.
  apply lookup_range in Hi as [-> Hk]. destruct (Hcols k Hk) as [_ Hpath].
  apply Forall_lookup. intros t p Hp. apply not_negative_ltb.
  eapply bootstrap_path_not_negative; eassumption.
Qed.

Lemma C10_witness :
  exists simulations g',
    simulate_paths [0.5; -0.25]%float 100 3 2 (Rng (fun n => n) 0)
      = Ok (simulations, g') /\
    Forall (fun prices => Forall (fun p => (p <? 0)%float = false) prices)
      (plotted_paths simulations 2).
Proof.
  apply C10_prices_not_negative;
    [discriminate | lia | lia | reflexivity | repeat constructor].
Defined.

(** ** The scan of tab 5 *)

Lemma scan_acc (yf : string -> ticker_data) (period_days : Z)
    (tickers : list string) (results : list row) :
  scan yf period_days tickers results
  = results ++ omap (scan_row yf period_days) tickers.
Proof.
  revert results. induction tickers as [|t ts IH]; intros results; simpl.
  - rewrite app_nil_r. reflexivity.
  - unfold scan_row at 1.
    destruct (market_cap_change period_days (yf t)) as [[c|]|e]; rewrite IH.
    + rewrite <- app_assoc. reflexivity.
    + reflexivity.
    + reflexivity.
Qed.

Lemma scan_omap (yf : string -> ticker_data) (period_days : Z)
    (tickers : list string) :
  scan yf period_days tickers [] = omap (scan_row yf period_days) tickers.
Proof. apply scan_acc. Qed.

Lemma scan_app (yf : string -> ticker_data) (period_days : Z)
    (l1 l2 : list string) :
  scan yf period_days (l1 ++ l2) []
  = scan yf period_days l1 [] ++ scan yf period_days l2 [].
Proof. rewrite !scan_omap. apply omap_app. Qed.

Lemma elem_of_scan (yf : string -> ticker_data) (period_days : Z)
    (tickers : list string) (r : row) :
  r ∈ scan yf period_days tickers [] <->
  exists ticker, ticker ∈ tickers /\ scan_row yf period_days ticker = Some r.
Proof. rewrite scan_omap. apply list_elem_of_omap. Qed.

Lemma scan_row_Ticker (yf : string -> ticker_data) (period_days : Z)
    (ticker : string) (r : row) :
  scan_row yf period_days ticker = Some r -> Ticker r = ticker.
Proof.
  unfold scan_row.
  destruct (market_cap_change period_days (yf ticker)) as [[c|]|e];
    intros [= <-]; reflexivity.
Qed.

(** A ticker whose body yields no row does not occur in the results, and the
    results are those of the scan without it. *)
Lemma scan_skips (yf : string -> ticker_data) (period_days : Z)
    (pre post : list string) (ticker : string) :
  scan_row yf period_days ticker = None ->
  scan yf period_days (pre ++ ticker :: post) []
    = scan yf period_days (pre ++ post) [] /\
  ticker ∉ Ticker <$> scan yf period_days (pre ++ ticker :: post) [].
Proof.
  intros Hnone. split.
  - rewrite !scan_omap, !omap_app. simpl. rewrite Hnone. reflexivity.
  - intros Hin. apply list_elem_of_fmap in Hin as (r & Hr & Hin).
    apply elem_of_scan in Hin as (t & _ & Ht).
    pose proof (scan_row_Ticker _ _ _ _ Ht) as Heq.
    assert (t = ticker) as -> by congruence. congruence.
Qed.

(** The three conditions under which lines 280 and 284 pass a ticker over. *)
Lemma market_cap_change_skip (period_days : Z) (td : ticker_data)
    (hist : list float) (inf : gmap string pyval) :
  history td = Ok hist -> info td = Ok inf ->
  default PyNone (inf !! "sharesOutstanding"%string) = PyNone \/
  hist = [] \/
  Z.of_nat (length hist) < period_days + 1 ->
  market_cap_change period_days td = Ok None.
Proof.
  intros Hh Hi Hskip. unfold market_cap_change. rewrite Hh, Hi. simpl.
  destruct Hskip as [-> | [-> | Hlen]].
  - reflexivity.
  - rewrite orb_true_r. reflexivity.
  - destruct (is_None _ || bool_decide _); [reflexivity|].
    destruct (Z.gtb_spec (Z.of_nat (length hist)) period_days);
      [lia | reflexivity].
Qed.

(** X1: the value of the row that is appended.  With [N >= 1], more than [N]
    closes and a numeric share count, the change is computed from the last
    close and from the close at position [len - N], that is [N - 1] rows
    before the last. *)
Lemma market_cap_change_value (period_days : nat) (td : ticker_data)
    (hist : list float) (inf : gmap string pyval) (shares : float) :
  history td = Ok hist -> info td = Ok inf ->
  inf !! "sharesOutstanding"%string = Some (PyNum shares) ->
  (1 <= period_days < length hist)%nat ->
  exists start_price end_price,
    hist !! (length hist - period_days)%nat = Some start_price /\
    last hist = Some end_price /\
    market_cap_change (Z.of_nat period_days) td
    = Ok (Some (end_price * shares - start_price * shares)%float).
Proof.
  intros Hh Hi Hs Hn.
  destruct (iloc_from_end hist period_days) as (sp & Hsp & Hiloc); [lia|].
  destruct (iloc_last_nonempty hist) as (ep & Hep & Hlast).
  { intros ->. simpl in Hn. lia. }
  exists sp, ep. split; [exact Hsp|]. split; [exact Hep|].
  unfold market_cap_change. rewrite Hh, Hi. simpl. rewrite Hs. simpl.
  rewrite bool_decide_eq_false_2 by lia.
  destruct (Z.gtb_spec (Z.of_nat (length hist)) (Z.of_nat period_days)); [|lia].
  rewrite Hiloc. simpl. rewrite Hlast. reflexivity.
Qed.

(** ** The claims about the scan *)

(** C1 (the code departs from the claim): with the lookback [N = 1] and the
    closes 100 then 110 of one share, the close one trading day before the
    latest is 100 and the change of the claim is 10; the scan reads
    [iloc[-1]] for both prices and records 0. *)
Theorem C1_lookback_off_by_one :
  scan yf_two_closes 1 ["A"%string] [] = [Row "A" 0] /\
  spec_delta 1 [100; 110]%float 1 = Some 10%float.
Proof. split; reflexivity. Qed.

(** C6: a ticker whose share count is unavailable (no entry, or [None]), whose
    price history is empty, or whose history has fewer than [N + 1]
    observations raises nothing and gives no row: it does not occur in the
    results, which are those of the scan without it. *)
Theorem C6_skipped_symbols (yf : string -> ticker_data) (period_days : Z)
    (pre post : list string) (ticker : string)
    (hist : list float) (inf : gmap string pyval) :
  history (yf ticker) = Ok hist -> info (yf ticker) = Ok inf ->
  default PyNone (inf !! "sharesOutstanding"%string) = PyNone \/
  hist = [] \/
  Z.of_nat (length hist) < period_days + 1 ->
  market_cap_change period_days (yf ticker) = Ok None /\
  scan yf period_days (pre ++ ticker :: post) []
    = scan yf period_days (pre ++ post) [] /\
  ticker ∉ Ticker <$> scan yf period_days (pre ++ ticker :: post) [].
Proof.
  intros Hh Hi Hskip.
  pose proof (market_cap_change_skip period_days _ hist inf Hh Hi Hskip) as Hnone.
  split; [exact Hnone|]. apply scan_skips. unfold scan_row. rewrite Hnone.
  reflexivity.
Qed.

Lemma C6_witness :
  market_cap_change 180 (yf_no_shares "A") = Ok None /\
  scan yf_no_shares 180 ([] ++ "A"%string :: ["B"%string]) []
    = scan yf_no_shares 180 ([] ++ ["B"%string]) [] /\
  "A"%string ∉ Ticker <$> scan yf_no_shares 180 ([] ++ "A"%string :: ["B"%string]) [].
Proof.
  apply (C6_skipped_symbols yf_no_shares 180 [] ["B"%string] "A"%string
           [100; 110]%float ∅); [reflexivity | reflexivity | left; reflexivity].
Defined.

(** C8: when the body of the loop raises for one ticker (the provider fails on
    the history or on the info, or the data cannot be processed), the
    exception is caught, the ticker gives no row, and the scan goes on: its
    results are those of the scan over the other tickers. *)
Theorem C8_failure_skips_one_symbol (yf : string -> ticker_data)
    (period_days : Z) (pre post : list string) (ticker : string) (e : exn) :
  market_cap_change period_days (yf ticker) = Raise e ->
  scan yf period_days (pre ++ ticker :: post) []
    = scan yf period_days pre [] ++ scan yf period_days post [] /\
  ticker ∉ Ticker <$> scan yf period_days (pre ++ ticker :: post) [].
Proof.
  intros Hraise.
  assert (Hnone : scan_row yf period_days ticker = None).
  { unfold scan_row. rewrite Hraise. reflexivity. }
  destruct (scan_skips yf period_days pre post ticker Hnone) as [Heq Hnot].
  split; [|exact Hnot]. rewrite Heq. apply scan_app.
Qed.

Lemma C8_witness :
  scan yf_failing 1 (["A"%string] ++ "STR"%string :: ["B"%string]) []
    = scan yf_failing 1 ["A"%string] [] ++ scan yf_failing 1 ["B"%string] [] /\
  "STR"%string ∉ Ticker <$>
    scan yf_failing 1 (["A"%string] ++ "STR"%string :: ["B"%string]) [].
Proof.
  apply (C8_failure_skips_one_symbol yf_failing 1 ["A"%string] ["B"%string]
           "STR"%string TypeError).
  reflexivity.
Defined.

(** ** The order of binary64 numbers *)

Lemma SFcompare_rank (x y : spec_float) :
  x <> S754_nan -> y <> S754_nan ->
  exists c, SFcompare x y = Some c /\
    match c with
    | Lt => lex_le (SFrank x) (SFrank y) /\ ~ lex_le (SFrank y) (SFrank x)
    | Eq => lex_le (SFrank x) (SFrank y) /\ lex_le (SFrank y) (SFrank x)
    | Gt => lex_le (SFrank y) (SFrank x) /\ ~ lex_le (SFrank x) (SFrank y)
    end.
Proof.
  intros Hx Hy. unfold lex_le.
  destruct x as [sx|sx| |sx mx ex]; destruct y as [sy|sy| |sy my ey];
    try congruence; cbn [SFcompare SFrank fst snd].
  1-8: try destruct sx; try destruct sy; eexists; (split; [reflexivity|]);
       cbn [fst snd]; lia.
  change (Pos.compare_cont Eq mx my) with (mx ?= my)%positive.
  destruct (Z.compare_spec ex ey) as [He|He|He];
    destruct (Pos.compare_spec mx my) as [Hm|Hm|Hm];
    try apply Pos2Z.pos_lt_pos in Hm;
    destruct sx, sy; eexists; (split; [reflexivity|]); cbn [fst snd CompOpp];
    subst; lia.
Qed.

Lemma leb_rank (x y : float) :
  is_nan x = false -> is_nan y = false ->
  ((x <=? y)%float = true <-> lex_le (SFrank (Prim2SF x)) (SFrank (Prim2SF y))).
Proof.
  intros Hx Hy. apply is_nan_false_spec in Hx, Hy.
  rewrite FloatAxioms.leb_spec. unfold SFleb.
  destruct (SFcompare_rank _ _ Hx Hy) as (c & -> & Hc).
  destruct c; split; intros H; try reflexivity; try discriminate; tauto.
Qed.

Lemma ltb_rank (x y : float) :
  is_nan x = false -> is_nan y = false ->
  ((x <? y)%float = true <->
   ~ lex_le (SFrank (Prim2SF y)) (SFrank (Prim2SF x))).
Proof.
  intros Hx Hy. apply is_nan_false_spec in Hx, Hy.
  rewrite FloatAxioms.ltb_spec. unfold SFltb.
  destruct (SFcompare_rank _ _ Hx Hy) as (c & -> & Hc).
  destruct c; split; intros H; try reflexivity; try discriminate; tauto.
Qed.

Lemma lex_le_trans (a b c : Z * Z * Z) : lex_le a b -> lex_le b c -> lex_le a c.
Proof. unfold lex_le. lia. Qed.

Lemma lex_le_total (a b : Z * Z * Z) : lex_le a b \/ lex_le b a.
Proof. unfold lex_le. lia. Qed.

Lemma lex_le_decidable (a b : Z * Z * Z) : lex_le a b \/ ~ lex_le a b.
Proof. unfold lex_le. lia. Qed.

(** On numbers that are not NaN, [<=?] is a total preorder and [<?] is its
    strict part. *)
Lemma leb_trans (x y z : float) :
  is_nan x = false -> is_nan y = false -> is_nan z = false ->
  (x <=? y)%float = true -> (y <=? z)%float = true -> (x <=? z)%float = true.
Proof.
  intros Hx Hy Hz. rewrite !leb_rank by assumption. apply lex_le_trans.
Qed.

Lemma not_ltb_leb (x y : float) :
  is_nan x = false -> is_nan y = false ->
  (x <? y)%float = false -> (y <=? x)%float = true.
Proof.
  intros Hx Hy Hlt. apply leb_rank; [assumption..|].
  destruct (lex_le_total (SFrank (Prim2SF y)) (SFrank (Prim2SF x))) as [H|H];
    [exact H|].
  destruct (lex_le_decidable (SFrank (Prim2SF y)) (SFrank (Prim2SF x))) as [H'|H'];
    [exact H'|].
  apply (ltb_rank x y Hx Hy) in H'. congruence.
Qed.

Lemma ltb_leb (x y : float) :
  is_nan x = false -> is_nan y = false ->
  (x <? y)%float = true -> (x <=? y)%float = true.
Proof.
  intros Hx Hy Hlt. apply leb_rank; [assumption..|].
  apply (ltb_rank x y Hx Hy) in Hlt.
  destruct (lex_le_total (SFrank (Prim2SF x)) (SFrank (Prim2SF y))); tauto.
Qed.

(** ** Sorting the results *)

Lemma filter_nan_partition (rows : list row) :
  filter (fun r => is_nan (Market_Cap_Change r) = false) rows
  ++ filter (fun r => is_nan (Market_Cap_Change r) = true) rows ≡ₚ rows.
Proof.
  induction rows as [|r rows IH]; [reflexivity|].
  destruct (is_nan (Market_Cap_Change r)) eqn:Hr.
  - rewrite filter_cons_False by congruence.
    rewrite filter_cons_True by exact Hr.
    rewrite <- Permutation_middle. constructor. exact IH.
  - rewrite filter_cons_True by exact Hr.
    rewrite filter_cons_False by congruence.
    simpl. constructor. exact IH.
Qed.

Lemma insert_desc_perm (r : row) (s : list row) : insert_desc r s ≡ₚ r :: s.
Proof.
  induction s as [|x s IH]; simpl; [reflexivity|].
  destruct (Market_Cap_Change r <? Market_Cap_Change x)%float; [|reflexivity].
  rewrite IH. apply perm_swap.
Qed.

Lemma insert_desc_sorted (r : row) (s : list row) :
  is_nan (Market_Cap_Change r) = false ->
  Forall (fun x => is_nan (Market_Cap_Change x) = false) s ->
  StronglySorted
    (fun a b => (Market_Cap_Change b <=? Market_Cap_Change a)%float = true) s ->
  StronglySorted
    (fun a b => (Market_Cap_Change b <=? Market_Cap_Change a)%float = true)
    (insert_desc r s).
Proof.
  intros Hr Hnan Hs. induction Hs as [|x s Hs IH Hx]; simpl.
  - repeat constructor.
  - apply Forall_cons in Hnan as [Hxn Hnan].
    destruct (Market_Cap_Change r <? Market_Cap_Change x)%float eqn:Hlt.
    + constructor; [apply IH, Hnan|].
      rewrite insert_desc_perm. constructor; [|exact Hx].
      apply ltb_leb; assumption.
    + assert (Hxr : (Market_Cap_Change x <=? Market_Cap_Change r)%float = true)
        by (apply not_ltb_leb; assumption).
      constructor; [constructor; assumption|].
      constructor; [exact Hxr|].
      rewrite Forall_forall in Hx, Hnan. apply Forall_forall. intros y Hy.
      apply (leb_trans _ (Market_Cap_Change x)); auto.
Qed.

Lemma insertion_sort_desc (s : list row) :
  Forall (fun x => is_nan (Market_Cap_Change x) = false) s ->
  foldr insert_desc [] s ≡ₚ s /\
  StronglySorted
    (fun a b => (Market_Cap_Change b <=? Market_Cap_Change a)%float = true)
    (foldr insert_desc [] s).
Proof.
  induction 1 as [|x s Hx Hs [IHp IHs]]; simpl.
  - split; [reflexivity | constructor].
  - split.
    + rewrite insert_desc_perm, IHp. reflexivity.
    + apply insert_desc_sorted; [exact Hx| |exact IHs].
      rewrite IHp. exact Hs.
Qed.

(** The stable sort is one of the outcomes that [sort_values] may have; in
    particular the call always has an outcome. *)
Lemma stable_sort_desc_admissible (rows : list row) :
  sort_values_desc rows (stable_sort_desc rows).
Proof.
  unfold sort_values_desc, stable_sort_desc.
  destruct (insertion_sort_desc
              (filter (fun r => is_nan (Market_Cap_Change r) = false) rows))
    as [Hp Hs].
  { apply Forall_forall. intros r Hr. apply list_elem_of_filter in Hr. tauto. }
  eexists. split; [exact Hp|]. split; [exact Hs | reflexivity].
Qed.

Lemma StronglySorted_weaken {A : Type} (R1 R2 : A -> A -> Prop) (l : list A) :
  (forall a b, R1 a b -> R2 a b) -> StronglySorted R1 l -> StronglySorted R2 l.
Proof.
  intros HR. induction 1 as [|x l Hl IH Hx]; constructor; [exact IH|].
  eapply Forall_impl; [exact Hx|]. apply HR.
Qed.

(** What every outcome of [sort_values] satisfies. *)
Lemma sort_values_desc_spec (rows out : list row) :
  sort_values_desc rows out ->
  out ≡ₚ rows /\ StronglySorted desc_nan_last out.
Proof.
  intros (s & Hp & Hs & ->). split.
  - rewrite Hp. apply filter_nan_partition.
  - apply StronglySorted_app_2.
    + intros a b _ Hb. right. apply list_elem_of_filter in Hb. tauto.
    + eapply StronglySorted_weaken; [|exact Hs]. intros a b Hab. left. exact Hab.
    + set (nans := filter _ rows).
      assert (Hn : Forall (fun r => is_nan (Market_Cap_Change r) = true) nans).
      { apply Forall_forall. intros r Hr. apply list_elem_of_filter in Hr. tauto. }
      clearbody nans. induction Hn as [|r nans Hr Hn IH]; constructor.
      * exact IH.
      * eapply Forall_impl; [exact Hn|]. intros b Hb. right. exact Hb.
Qed.

(** ** The claims about the ranking *)

Lemma tab5_outcome (yf : string -> ticker_data) (period_days : Z)
    (industry_tickers : list string) :
  exists view, tab5 yf period_days industry_tickers view.
Proof.
  destruct (scan yf period_days industry_tickers []) as [|r results] eqn:Hscan.
  - exists NoData. unfold tab5. exact Hscan.
  - exists (TopCompanies (take 10 (stable_sort_desc (r :: results)))).
    unfold tab5. rewrite Hscan. split; [discriminate|].
    eexists. split; [apply stable_sort_desc_admissible | reflexivity].
Qed.

(** Proves [x :: l ≡ₚ l'] for lists given in full, by taking [x] out of
    [l']. *)
Ltac take_out x l' pre :=
  lazymatch l' with
  | x :: ?post =>
      apply (@Permutation_cons_app row _ (rev' pre) post x);
      cbn [rev' rev_append app]
  | ?y :: ?post => take_out x post (y :: pre)
  end.

Ltac permutation_of_lists :=
  repeat lazymatch goal with
  | |- [] ≡ₚ [] => constructor
  | |- ?x :: _ ≡ₚ ?l' => take_out x l' (@nil row)
  end.

(** C2 (as stated, refuted): eighteen tickers with the same delta (here 0, as
    the one-day lookback gives every ticker).  Every order of the rows is
    sorted by delta, and the sort may return the rows 0, 1, 16, 15, ..., 9
    first, as a quicksort partition that swaps equal keys does; the table is
    then not the first ten tickers in their original order. *)
Lemma C2_counterexample :
  exists top_companies,
    tab5 yf_two_closes 1 eighteen_tickers (TopCompanies top_companies) /\
    top_companies <> stable_top10 (scan yf_two_closes 1 eighteen_tickers []).
Proof.
  assert (Hscan : scan yf_two_closes 1 eighteen_tickers []
                  = (fun t => Row t 0) <$> eighteen_tickers)
    by (vm_compute; reflexivity).
  exists ((fun t => Row t 0) <$>
            ["T00"; "T01"; "T16"; "T15"; "T14"; "T13"; "T12"; "T11"; "T10";
             "T09"]%string).
  unfold tab5. rewrite Hscan. split.
  - split; [discriminate|].
    exists ((fun t => Row t 0) <$>
              ["T00"; "T01"; "T16"; "T15"; "T14"; "T13"; "T12"; "T11"; "T10";
               "T09"; "T08"; "T07"; "T06"; "T05"; "T04"; "T03"; "T02";
               "T17"]%string).
    split; [|reflexivity].
    exists ((fun t => Row t 0) <$>
              ["T00"; "T01"; "T16"; "T15"; "T14"; "T13"; "T12"; "T11"; "T10";
               "T09"; "T08"; "T07"; "T06"; "T05"; "T04"; "T03"; "T02";
               "T17"]%string).
    split; [|split].
    + vm_compute. permutation_of_lists.
    + cbn [fmap list_fmap]. repeat constructor.
    + reflexivity.
  - vm_compute. discriminate.
Qed.

(** C2 (amended): when some row was collected, the table is shown and holds
    the first ten rows (all of them when there are fewer) of the collected
    rows put in descending order of delta, rows with a NaN delta last; the
    rows left out come after them in that order.  The order among rows with
    equal delta is not fixed: the sort is the default one of pandas, which is
    not stable. *)
Theorem C2_sorted_top10 (yf : string -> ticker_data) (period_days : Z)
    (industry_tickers : list string) :
  scan yf period_days industry_tickers [] <> [] ->
  (exists top_companies,
     tab5 yf period_days industry_tickers (TopCompanies top_companies)) /\
  forall top_companies,
    tab5 yf period_days industry_tickers (TopCompanies top_companies) ->
    exists rest,
      top_companies ++ rest ≡ₚ scan yf period_days industry_tickers [] /\
      StronglySorted desc_nan_last (top_companies ++ rest) /\
      length top_companies
        = (length (scan yf period_days industry_tickers []) `min` 10)%nat.
Proof.
  intros Hne. split.
  - exists (take 10 (stable_sort_desc (scan yf period_days industry_tickers []))).
    split; [exact Hne|].
    eexists. split; [apply stable_sort_desc_admissible | reflexivity].
  - intros top (_ & sorted & Hsort & ->).
    apply sort_values_desc_spec in Hsort as [Hperm Hsorted].
    exists (drop 10 sorted). rewrite take_drop.
    split; [exact Hperm|]. split; [exact Hsorted|].
    rewrite length_take, Hperm. lia.
Qed.

Lemma C2_witness :
  (exists top_companies,
     tab5 yf_two_closes 1 eighteen_tickers (TopCompanies top_companies)) /\
  forall top_companies,
    tab5 yf_two_closes 1 eighteen_tickers (TopCompanies top_companies) ->
    exists rest,
      top_companies ++ rest ≡ₚ scan yf_two_closes 1 eighteen_tickers [] /\
      StronglySorted desc_nan_last (top_companies ++ rest) /\
      length top_companies
        = (length (scan yf_two_closes 1 eighteen_tickers []) `min` 10)%nat.
Proof. apply C2_sorted_top10. discriminate. Defined.

(** C9: the tab always has an outcome; it is the message "No data available"
    exactly when no row was collected, and a table that is shown is never
    empty, so "no data" cannot be taken for a result. *)
Theorem C9_no_data_signal (yf : string -> ticker_data) (period_days : Z)
    (industry_tickers : list string) :
  (exists view, tab5 yf period_days industry_tickers view) /\
  forall view, tab5 yf period_days industry_tickers view ->
    (view = NoData <-> scan yf period_days industry_tickers [] = []) /\
    view <> TopCompanies [].
Proof.
  split; [apply tab5_outcome|].
  intros [top|] Hview; unfold tab5 in Hview.
  - destruct Hview as (Hne & sorted & Hsort & ->).
    split; [split; [discriminate | intros H; contradiction]|].
    apply sort_values_desc_spec in Hsort as [Hperm _].
    intros [= Htake]. apply (f_equal length) in Htake.
    rewrite length_take, Hperm in Htake. simpl in Htake.
    destruct (scan yf period_days industry_tickers []); [congruence|].
    simpl in Htake. lia.
  - split; [tauto | discriminate].
Qed.

(* ===================================================================== *)
(** * Further properties of the dashboard *)
(* ===================================================================== *)

(** ** More on the scan of tab 5 *)

Lemma market_cap_change_value_witness :
  exists start_price end_price,
    [100; 104; 102; 110]%float !! (length [100; 104; 102; 110]%float - 3)%nat
      = Some start_price /\
    last [100; 104; 102; 110]%float = Some end_price /\
    market_cap_change (Z.of_nat 3)
      (TickerData (Ok [100; 104; 102; 110]%float)
                  (Ok {[ "sharesOutstanding"%string := PyNum 2 ]}))
    = Ok (Some (end_price * 2 - start_price * 2)%float).
Proof.
  apply (market_cap_change_value 3
           (TickerData (Ok [100; 104; 102; 110]%float)
                       (Ok {[ "sharesOutstanding"%string := PyNum 2 ]}))
           [100; 104; 102; 110]%float
           {[ "sharesOutstanding"%string := PyNum 2 ]} 2);
    [reflexivity | reflexivity | vm_compute; reflexivity | simpl; lia].
Defined.

(** A row is appended only on the path through lines 285-289. *)
Lemma market_cap_change_inv (period_days : Z) (td : ticker_data) (c : float) :
  market_cap_change period_days td = Ok (Some c) ->
  exists hist inf shares start_price end_price,
    history td = Ok hist /\ info td = Ok inf /\
    inf !! "sharesOutstanding"%string = Some (PyNum shares) /\
    period_days < Z.of_nat (length hist) /\
    iloc hist (- period_days) = Ok start_price /\
    iloc hist (-1) = Ok end_price /\
    c = (end_price * shares - start_price * shares)%float.
Proof.
  unfold market_cap_change.
  destruct (history td) as [hist|e]; [|discriminate].
  destruct (info td) as [inf|e]; [|discriminate]. simpl.
  destruct (inf !! "sharesOutstanding"%string) as [[|shares|s]|] eqn:Hs; simpl;
    try discriminate.
  - destruct (bool_decide (length hist = 0%nat)); [discriminate|].
    destruct (Z.gtb_spec (Z.of_nat (length hist)) period_days) as [Hlen|];
      [|discriminate].
    destruct (iloc hist (- period_days)) as [sp|e] eqn:Hsp; [|discriminate].
    destruct (iloc hist (-1)) as [ep|e] eqn:Hep; [|discriminate].
    simpl. intros [= <-].
    exists hist, inf, shares, sp, ep.
    split; [reflexivity|]. split; [reflexivity|]. split; [exact Hs|].
    split; [lia|]. split; [exact Hsp|]. split; [exact Hep | reflexivity].
  - destruct (bool_decide (length hist = 0%nat)); [discriminate|].
    destruct (Z.of_nat (length hist) >? period_days); [|discriminate].
    destruct (iloc hist (- period_days)); [|discriminate].
    destruct (iloc hist (-1)); discriminate.
Qed.

Lemma sub_self_zero_or_nan (x : float) :
  (x - x)%float = 0%float \/ is_nan (x - x) = true.
Proof.
  destruct (Prim2SF x) as [s|s| |s m e] eqn:Hx.
  - left. apply Prim2SF_inj. rewrite FloatAxioms.sub_spec, Hx, Prim2SF_zero.
    destruct s; reflexivity.
  - right. apply is_nan_spec. rewrite FloatAxioms.sub_spec, Hx.
    destruct s; reflexivity.
  - right. apply is_nan_spec. rewrite FloatAxioms.sub_spec, Hx. reflexivity.
  - left. apply Prim2SF_inj. rewrite FloatAxioms.sub_spec, Hx, Prim2SF_zero.
    unfold SF64sub, SFsub. rewrite Z.sub_diag. reflexivity.
Qed.

(** X2: with the period "1 Day" ([period_days = 1]) line 285 reads
    [iloc[-1]], the same close as line 286, so every row of the results has
    the change [x - x] for [x = end_price * shares_outstanding]: it is zero,
    or NaN when that product is not finite. *)
Theorem one_day_change_is_zero_or_nan (yf : string -> ticker_data)
    (industry_tickers : list string) (r : row) :
  r ∈ scan yf 1 industry_tickers [] ->
  Market_Cap_Change r = 0%float \/ is_nan (Market_Cap_Change r) = true.
Proof.
  intros Hin. apply elem_of_scan in Hin as (t & _ & Hrow).
  unfold scan_row in Hrow.
  destruct (market_cap_change 1 (yf t)) as [[c|]|e] eqn:Hc; try discriminate Hrow.
  injection Hrow as <-. simpl.
  apply market_cap_change_inv
    in Hc as (hist & inf & shares & sp & ep & _ & _ & _ & _ & Hsp & Hep & ->).
  change (- (1)) with (-1) in Hsp.
  assert (sp = ep) as -> by congruence.
  apply sub_self_zero_or_nan.
Qed.

Lemma one_day_change_is_zero_or_nan_witness :
  Market_Cap_Change (Row "A" 0) = 0%float \/
  is_nan (Market_Cap_Change (Row "A" 0)) = true.
Proof.
  apply (one_day_change_is_zero_or_nan yf_two_closes ["A"%string; "B"%string]).
  vm_compute. left.
Defined.

(** X3: a period that is not shorter than any history gives no row at all.
    When no ticker of the sector has more than [period_days] rows in its
    one-year history, the results are empty and tab 5 shows the message "No
    data available ..." and nothing else. *)
Theorem lookback_beyond_history (yf : string -> ticker_data) (period_days : Z)
    (industry_tickers : list string) :
  (forall ticker hist, ticker ∈ industry_tickers ->
     history (yf ticker) = Ok hist -> Z.of_nat (length hist) <= period_days) ->
  scan yf period_days industry_tickers [] = [] /\
  forall view, tab5 yf period_days industry_tickers view <-> view = NoData.
Proof.
  intros Hshort.
  assert (Hnil : scan yf period_days industry_tickers [] = []).
  { destruct (scan yf period_days industry_tickers []) as [|r rs] eqn:Hscan;
      [reflexivity|].
    assert (Hin : r ∈ scan yf period_days industry_tickers [])
      by (rewrite Hscan; left).
    apply elem_of_scan in Hin as (t & Ht & Hrow). unfold scan_row in Hrow.
    destruct (market_cap_change period_days (yf t)) as [[c|]|e] eqn:Hc;
      try discriminate Hrow.
    apply market_cap_change_inv
      in Hc as (hist & inf & shares & sp & ep & Hh & _ & _ & Hlen & _).
    specialize (Hshort t hist Ht Hh). lia. }
  split; [exact Hnil|].
  intros [top|]; unfold tab5; rewrite Hnil; simpl.
  - split; [intros [Hne _]; congruence | discriminate].
  - split; reflexivity.
Qed.

Lemma lookback_beyond_history_witness :
  scan yf_two_closes 365 ["A"%string; "B"%string] [] = [] /\
  forall view, tab5 yf_two_closes 365 ["A"%string; "B"%string] view <-> view = NoData.
Proof.
  apply (lookback_beyond_history yf_two_closes 365 ["A"%string; "B"%string]).
  intros ticker hist _ [= <-]. simpl. lia.
Defined.

(** X4: the results keep the order of the tickers of the sector.  The tickers
    of the rows collected by the loop, read in the order of the rows, form a
    subsequence of [industry_tickers]: no ticker is listed that is not in the
    sector, none is listed more often than it occurs there, and the rows are
    collected in the order of the sector table. *)
Theorem scan_keeps_ticker_order (yf : string -> ticker_data) (period_days : Z)
    (industry_tickers : list string) :
  Ticker <$> scan yf period_days industry_tickers [] `sublist_of` industry_tickers.
Proof.
  rewrite scan_omap.
  induction industry_tickers as [|t ts IH]; simpl; [constructor|].
  destruct (scan_row yf period_days t) as [r|] eqn:Hr; simpl.
  - rewrite (scan_row_Ticker _ _ _ _ Hr). apply sublist_skip, IH.
  - apply sublist_cons, IH.
Qed.

(** ** The sectors of tab 5 *)

Lemma elem_of_unique_from (seen l : list string) (x : string) :
  x ∈ unique_from seen l <-> x ∈ l /\ x ∉ seen.
Proof.
  revert seen. induction l as [|y l IH]; intros seen; simpl.
  - rewrite elem_of_nil. tauto.
  - destruct (decide (y ∈ seen)) as [Hy|Hy].
    + rewrite IH, elem_of_cons. split.
      * intros [Hl Hs]. split; [right; exact Hl | exact Hs].
      * intros [[->|Hl] Hs]; [contradiction | split; assumption].
    + rewrite !elem_of_cons, IH, elem_of_cons. split.
      * intros [->|[Hl Hs]]; [split; [left; reflexivity | exact Hy]|].
        split; [right; exact Hl | tauto].
      * intros [[->|Hl] Hs]; [left; reflexivity|].
        destruct (decide (x = y)) as [->|Hne]; [left; reflexivity|].
        right. split; [exact Hl|]. intros [?|?]; contradiction.
Qed.

Lemma NoDup_unique_from (seen l : list string) : NoDup (unique_from seen l).
Proof.
  revert seen. induction l as [|y l IH]; intros seen; simpl; [constructor|].
  destruct (decide (y ∈ seen)); [apply IH|].
  constructor; [|apply IH].
  rewrite elem_of_unique_from, elem_of_cons. tauto.
Qed.

Lemma elem_of_industry_tickers (sp500_data : list constituent)
    (selected_industry ticker : string) :
  ticker ∈ industry_tickers sp500_data selected_industry <->
  exists c, c ∈ sp500_data /\ Symbol c = ticker /\
            GICS_Sector c = selected_industry.
Proof.
  unfold industry_tickers. rewrite list_elem_of_fmap. split.
  - intros (c & -> & Hc). apply list_elem_of_filter in Hc as [Hs Hc].
    exists c. auto.
  - intros (c & Hc & <- & Hs). exists c. split; [reflexivity|].
    apply list_elem_of_filter. auto.
Qed.

(** X5: the select box of line 258 offers every sector of the table once, and
    only sectors that have at least one ticker: a sector is offered exactly
    when the list of line 261 is not empty for it. *)
Theorem offered_sectors_have_tickers (sp500_data : list constituent) :
  NoDup (available_industries sp500_data) /\
  forall sector,
    sector ∈ available_industries sp500_data <->
    industry_tickers sp500_data sector <> [].
Proof.
  split; [apply NoDup_unique_from|].
  intros sector. unfold available_industries, unique.
  rewrite elem_of_unique_from, list_elem_of_fmap. split.
  - intros [(c & -> & Hc) _] Hnil.
    assert (Hin : Symbol c ∈ industry_tickers sp500_data (GICS_Sector c))
      by (apply elem_of_industry_tickers; exists c; auto).
    rewrite Hnil in Hin. apply elem_of_nil in Hin. exact Hin.
  - intros Hne.
    destruct (industry_tickers sp500_data sector) as [|t ts] eqn:Hts;
      [congruence|].
    assert (Hin : t ∈ industry_tickers sp500_data sector)
      by (rewrite Hts; left).
    apply elem_of_industry_tickers in Hin as (c & Hc & _ & Hs).
    split; [exists c; auto | apply not_elem_of_nil].
Qed.

(** X6: the ranking lists only companies of the selected sector.  Every row
    collected by the loop of lines 272-292, run on the list of line 261,
    carries the symbol of a row of the table whose sector is the selected
    one. *)
Theorem results_belong_to_sector (yf : string -> ticker_data) (period_days : Z)
    (sp500_data : list constituent) (selected_industry : string) (r : row) :
  r ∈ scan yf period_days (industry_tickers sp500_data selected_industry) [] ->
  exists c, c ∈ sp500_data /\ Symbol c = Ticker r /\
            GICS_Sector c = selected_industry.
Proof.
  intros Hin. apply elem_of_scan in Hin as (t & Ht & Hrow).
  apply scan_row_Ticker in Hrow as ->.
  apply elem_of_industry_tickers. exact Ht.
Qed.

Lemma results_belong_to_sector_witness :
  exists c,
    c ∈ [Constituent "A" "Energy"; Constituent "B" "Utilities";
         Constituent "C" "Energy"]%string /\
    Symbol c = Ticker (Row "C" 0) /\ GICS_Sector c = "Energy"%string.
Proof.
  apply (results_belong_to_sector yf_two_closes 1).
  vm_compute. right. left.
Defined.

(** ** Random draws consumed by the simulation *)

Lemma for_each_used {A S : Type} (xs : list A) (body : A -> S -> M S)
    (n : nat) (s s' : S) (g g' : rng) :
  (forall x s g s' g', body x s g = Ok (s', g') ->
     tape g' = tape g /\ used g' = (used g + n)%nat) ->
  for_each xs body s g = Ok (s', g') ->
  tape g' = tape g /\ used g' = (used g + length xs * n)%nat.
Proof.
  intros Hbody. revert s g. induction xs as [|x xs IH]; intros s g Hrun.
  - injection Hrun as _ <-. split; [reflexivity | simpl; lia].
  - simpl in Hrun. unfold mbind, M_bind in Hrun.
    destruct (body x s g) as [[s1 g1]|e] eqn:Hx; [|discriminate Hrun].
    apply Hbody in Hx as [Ht Hu]. apply IH in Hrun as [Ht' Hu'].
    split; [congruence | simpl; lia].
Qed.

Lemma append_price_used (returns prices prices' : list float) (g g' : rng) :
  append_price returns prices g = Ok (prices', g') ->
  tape g' = tape g /\ used g' = (used g + 1)%nat.
Proof.
  unfold append_price, mbind, M_bind, lift, np_random_choice.
  destruct (iloc prices (-1)) as [p|e]; [|discriminate].
  destruct (returns !! _) as [r|]; [|discriminate].
  intros [= _ <-]. simpl. split; [reflexivity | lia].
Qed.

Lemma simulate_path_used (returns prices : list float) (last_price : float)
    (time_horizon : Z) (g g' : rng) :
  simulate_path returns last_price time_horizon g = Ok (prices, g') ->
  tape g' = tape g /\ used g' = (used g + Z.to_nat (time_horizon - 1))%nat.
Proof.
  unfold simulate_path. intros Hrun.
  apply (for_each_used _ _ 1%nat) in Hrun.
  - rewrite length_range in Hrun. destruct Hrun as [Ht Hu]. split; [exact Ht | lia].
  - intros x s h s' h'. apply append_price_used.
Qed.

Lemma simulate_paths_used (returns : list float) (last_price : float)
    (time_horizon num_simulations : Z) (simulations : ndarray) (g g' : rng) :
  simulate_paths returns last_price time_horizon num_simulations g
    = Ok (simulations, g') ->
  tape g' = tape g /\
  used g' = (used g + Z.to_nat num_simulations * Z.to_nat (time_horizon - 1))%nat.
Proof.
  unfold simulate_paths, mbind at 1, M_bind at 1, lift at 1.
  destruct (np_zeros time_horizon num_simulations) as [a0|e]; [|discriminate].
  intros Hrun. apply (for_each_used _ _ (Z.to_nat (time_horizon - 1))) in Hrun.
  - rewrite length_range in Hrun. exact Hrun.
  - intros i a h a' h'. unfold mbind, M_bind, lift.
    destruct (simulate_path returns last_price time_horizon h) as [[p h1]|e] eqn:Hp;
      [|discriminate].
    apply simulate_path_used in Hp.
    destruct (set_column a i p); [|discriminate].
    intros [= _ <-]. exact Hp.
Qed.

(** X7: the simulation of tab 4 calls [np.random.choice] exactly
    [num_simulations * (time_horizon - 1)] times: for a non-empty sample, a
    horizon [H >= 1] and [M >= 0] simulations it returns, and the generator
    has then advanced by [M * (H - 1)] draws. *)
Theorem simulation_draw_count (returns : list float) (last_price : float)
    (time_horizon num_simulations : Z) (g : rng) :
  returns <> [] -> 1 <= time_horizon -> 0 <= num_simulations ->
  exists simulations g',
    simulate_paths returns last_price time_horizon num_simulations g
      = Ok (simulations, g') /\
    tape g' = tape g /\
    Z.of_nat (used g') = Z.of_nat (used g) + num_simulations * (time_horizon - 1).
Proof.
  intros Hret Hh Hm.
  destruct (simulate_paths_Ok returns last_price time_horizon num_simulations g
              Hret Hh Hm) as (a & g' & Hrun & _).
  exists a, g'. split; [exact Hrun|].
  apply simulate_paths_used in Hrun as [Ht Hu]. split; [exact Ht|].
  rewrite Hu, Nat2Z.inj_add, Nat2Z.inj_mul, !Z2Nat.id by lia. reflexivity.
Qed.

Lemma simulation_draw_count_witness :
  exists simulations g',
    simulate_paths [0.5; -0.25]%float 100 3 2 (Rng (fun n => n) 0)
      = Ok (simulations, g') /\
    tape g' = tape (Rng (fun n => n) 0) /\
    Z.of_nat (used g') = Z.of_nat (used (Rng (fun n => n) 0)) + 2 * (3 - 1).
Proof.
  apply (simulation_draw_count [0.5; -0.25]%float 100 3 2 (Rng (fun n => n) 0));
    [discriminate | lia | lia].
Defined.

(** ** Tab 4 on a history of finite closes *)

Lemma sample_returns_finite (close : list float) :
  Forall (fun c => finite_nonzero c = true) close ->
  sample_returns close
  = zip_with (fun cur prev => (cur / prev - 1)%float) (tail close) close.
Proof.
  intros Hfin. destruct close as [|x s]; [reflexivity|].
  apply Forall_cons in Hfin as [Hx Hs].
  rewrite sample_returns_cons.
  apply dropna_id, changes_not_nan; assumption.
Qed.

(** X8: lines 234-246 as a whole on a well-formed history.  When the selected
    range holds at least two closes, all finite and non-zero, tab 4 does not
    raise for any horizon [H >= 1] and any [M >= 1]: it plots [M] paths of [H]
    prices each, every path starts at the last close of the range, and every
    later price is the price before it times [1 + r] for one of the
    consecutive-close changes [r] of the range. *)
Theorem tab4_on_finite_history (close : list float)
    (num_simulations time_horizon : Z) (g : rng) :
  (2 <= length close)%nat ->
  Forall (fun c => finite_nonzero c = true) close ->
  1 <= time_horizon -> 1 <= num_simulations ->
  exists last_price simulations g',
    last close = Some last_price /\
    tab4 close num_simulations time_horizon g = Ok (simulations, g') /\
    length (plotted_paths simulations num_simulations)
      = Z.to_nat num_simulations /\
    Forall (fun prices =>
              length prices = Z.to_nat time_horizon /\
              bootstrap_path
                (zip_with (fun cur prev => (cur / prev - 1)%float)
                   (tail close) close)
                last_price prices)
      (plotted_paths simulations num_simulations).
Proof.
  intros Hlen Hfin Hh Hm.
  destruct (iloc_last_nonempty close) as (p & Hlast & Hiloc).
  { intros ->. simpl in Hlen. lia. }
  set (returns := zip_with (fun cur prev => (cur / prev - 1)%float)
                    (tail close) close).
  assert (Hret : returns <> []).
  { intros Hnil. apply (f_equal length) in Hnil.
    unfold returns in Hnil. rewrite length_zip_with in Hnil. destruct close as [|c0 [|c1 cs]]; simpl in *; lia. }
  destruct (simulate_paths_Ok returns p time_horizon num_simulations g)
    as (a & g' & Hrun & _ & _ & Hcols); [exact Hret | lia | lia |].
  exists p, a, g'. split; [exact Hlast|]. split; [|split].
  - unfold tab4. rewrite (bind_Ok _ _ g g (returns, p)); [exact Hrun|].
    apply lift_Ok. unfold tab4_inputs.
    rewrite (sample_returns_finite close Hfin), Hiloc. reflexivity.
  - unfold plotted_paths. rewrite length_fmap. apply length_range.
  - unfold plotted_paths. apply Forall_fmap, Forall_lookup. intros k i Hi.
    apply lookup_range in Hi as [-> Hk]. apply Hcols. exact Hk.
Qed.

Lemma tab4_on_finite_history_witness :
  exists last_price simulations g',
    last [100; 102; 101]%float = Some last_price /\
    tab4 [100; 102; 101]%float 200 30 (Rng (fun n => n) 0)
      = Ok (simulations, g') /\
    length (plotted_paths simulations 200) = Z.to_nat 200 /\
    Forall (fun prices =>
              length prices = Z.to_nat 30 /\
              bootstrap_path
                (zip_with (fun cur prev => (cur / prev - 1)%float)
                   (tail [100; 102; 101]%float) [100; 102; 101]%float)
                last_price prices)
      (plotted_paths simulations 200).
Proof.
  apply (tab4_on_finite_history [100; 102; 101]%float 200 30 (Rng (fun n => n) 0));
    [simpl; lia | repeat constructor | lia | lia].
Defined.

(** ** Tab 2: the chart *)

Lemma leb_refl (x : float) : is_nan x = false -> (x <=? x)%float = true.
Proof.
  intros Hx. apply leb_rank; [exact Hx | exact Hx |].
  destruct (lex_le_total (SFrank (Prim2SF x)) (SFrank (Prim2SF x))); assumption.
Qed.

Lemma ltb_nan_l (x y : float) : is_nan x = true -> (x <? y)%float = false.
Proof.
  intros Hx. apply is_nan_spec in Hx.
  rewrite FloatAxioms.ltb_spec, Hx. reflexivity.
Qed.

(** The product with a finite number other than zero is NaN only for NaN. *)
Lemma mul_finite_not_nan (v c : float) :
  is_nan v = false -> finite_nonzero c = true -> is_nan (v * c) = false.
Proof.
  intros Hv Hc. apply is_nan_false_spec in Hv.
  apply finite_nonzero_spec in Hc as (s & m & e & Hc).
  apply is_nan_false_spec. rewrite FloatAxioms.mul_spec, Hc.
  destruct (Prim2SF v) as [sv|sv| |sv mv ev]; try discriminate; try congruence.
  unfold SF64mul, SFmul. intros Hnan.
  pose proof (binary_round_aux_nonneg (xorb sv s) (Z.pos (mv * m)) (ev + e)
                loc_Exact ltac:(lia)) as Hsign.
  rewrite Hnan in Hsign. discriminate Hsign.
Qed.

(** The running maximum of Python's [max]: on numbers that are not NaN it is
    one of them and none is greater. *)
Lemma foldl_max_spec (xs : list float) (m0 : float) :
  is_nan m0 = false -> Forall (fun y => is_nan y = false) xs ->
  let m := foldl (fun m y => if (m <? y)%float then y else m) m0 xs in
  m ∈ m0 :: xs /\ is_nan m = false /\
  (m0 <=? m)%float = true /\ Forall (fun y => (y <=? m)%float = true) xs.
Proof.
  revert m0. induction xs as [|x xs IH]; intros m0 Hm0 Hxs; simpl.
  - split; [left|]. split; [exact Hm0|]. split; [apply leb_refl, Hm0 | constructor].
  - apply Forall_cons in Hxs as [Hx Hxs].
    set (m1 := if (m0 <? x)%float then x else m0).
    assert (Hm1 : is_nan m1 = false) by (unfold m1; destruct (m0 <? x)%float; assumption).
    assert (H01 : (m0 <=? m1)%float = true).
    { unfold m1. destruct (m0 <? x)%float eqn:Hlt.
      - apply ltb_leb; assumption.
      - apply leb_refl, Hm0. }
    assert (Hx1 : (x <=? m1)%float = true).
    { unfold m1. destruct (m0 <? x)%float eqn:Hlt.
      - apply leb_refl, Hx.
      - apply not_ltb_leb; assumption. }
    destruct (IH m1 Hm1 Hxs) as (Hin & Hnan & Hle & Hall).
    split; [|split; [exact Hnan|split]].
    + apply elem_of_cons in Hin as [Heq|Hin].
      * rewrite Heq. unfold m1. destruct (m0 <? x)%float; [right; left | left].
      * right. right. exact Hin.
    + apply (leb_trans m0 m1); assumption.
    + constructor; [apply (leb_trans x m1); assumption | exact Hall].
Qed.

Lemma filter_nil_iff {A : Type} (P : A -> Prop) `{!forall x, Decision (P x)}
    (l : list A) :
  filter P l = [] <-> forall x, x ∈ l -> ~ P x.
Proof.
  split.
  - intros Hnil x Hx HP.
    assert (Hin : x ∈ filter P l) by (apply list_elem_of_filter; auto).
    rewrite Hnil in Hin. apply elem_of_nil in Hin. exact Hin.
  - intros Hnone. destruct (filter P l) as [|x xs] eqn:Hf; [reflexivity|].
    assert (Hin : x ∈ filter P l) by (rewrite Hf; left).
    apply list_elem_of_filter in Hin as [HP Hx]. destruct (Hnone x Hx HP).
Qed.

(** X9: a date range without any row of the history stops the script in tab
    2.  When no row lies between the two selected dates (in particular when
    the start date is after the end date), line 215 takes [max] of an empty
    series and raises [ValueError]; the run ends there, so tabs 3 and 4 are
    not computed. *)
Theorem empty_date_range_raises (stock_data : list bar)
    (start_date end_date : date) (tab3 : result unit)
    (num_simulations time_horizon : Z) (g : rng) :
  (forall b, b ∈ stock_data ->
     ~ (Timestamp start_date <= Date b /\ Date b <= Timestamp end_date)) ->
  tab2 stock_data start_date end_date = Raise ValueError /\
  tabs_2_to_4 stock_data start_date end_date tab3 num_simulations time_horizon g
  = Raise ValueError.
Proof.
  intros Hnone.
  assert (Htab2 : tab2 stock_data start_date end_date = Raise ValueError).
  { unfold tab2, tab2_filtered_data.
    rewrite (proj2 (filter_nil_iff _ stock_data) Hnone). reflexivity. }
  split; [exact Htab2|].
  unfold tabs_2_to_4. apply bind_Raise, lift_Raise, Htab2.
Qed.

Lemma empty_date_range_raises_witness :
  tab2 [Bar 1704153600000000000 100 5000] (mkdate 2024 1 3) (mkdate 2024 1 1)
  = Raise ValueError /\
  tabs_2_to_4 [Bar 1704153600000000000 100 5000] (mkdate 2024 1 3)
    (mkdate 2024 1 1) (Ok tt) 200 30 (Rng (fun n => n) 0)
  = Raise ValueError.
Proof.
  apply (empty_date_range_raises [Bar 1704153600000000000 100 5000]
           (mkdate 2024 1 3) (mkdate 2024 1 1)).
  intros b _ [H1 H2].
  assert (Hlt : Timestamp (mkdate 2024 1 1) < Timestamp (mkdate 2024 1 3))
    by (vm_compute; reflexivity).
  lia.
Defined.

(** X10: the volume axis holds every bar.  When the selected range holds at
    least one row and no volume is NaN, tab 2 does not raise, it charts
    exactly the rows of the range, and the upper end of the volume axis is
    1.2 times the volume of one of these rows and at least 1.2 times the
    volume of each of them. *)
Theorem volume_axis_holds_every_bar (stock_data : list bar)
    (start_date end_date : date) :
  tab2_filtered_data stock_data start_date end_date <> [] ->
  Forall (fun b => is_nan (Volume b) = false) stock_data ->
  exists c,
    tab2 stock_data start_date end_date = Ok c /\
    chart_rows c = tab2_filtered_data stock_data start_date end_date /\
    (exists b, b ∈ chart_rows c /\
               volume_range c = (Volume b * 0x1.3333333333333p+0)%float) /\
    forall b, b ∈ chart_rows c ->
      (Volume b * 0x1.3333333333333p+0 <=? volume_range c)%float = true.
Proof.
  intros Hne Hvol. unfold tab2, volume_axis_max.
  set (fd := tab2_filtered_data stock_data start_date end_date) in *.
  assert (Hfd : Forall (fun b => is_nan (Volume b) = false) fd).
  { apply Forall_forall. intros b Hb.
    apply list_elem_of_filter in Hb as [_ Hb].
    revert b Hb. apply Forall_forall, Hvol. }
  set (scaled := (fun v => (v * 0x1.3333333333333p+0)%float) <$> (Volume <$> fd)).
  assert (Hscaled : Forall (fun y => is_nan y = false) scaled).
  { unfold scaled. rewrite <- list_fmap_compose. apply Forall_fmap.
    eapply Forall_impl; [exact Hfd|]. simpl. intros b Hb.
    apply mul_finite_not_nan; [exact Hb | reflexivity]. }
  destruct scaled as [|x xs] eqn:Hsc.
  { destruct fd; [congruence | discriminate Hsc]. }
  apply Forall_cons in Hscaled as [Hx Hxs].
  destruct (foldl_max_spec xs x Hx Hxs) as (Hin & _ & Hle & Hall).
  simpl. eexists. split; [reflexivity|]. cbn [chart_rows volume_range].
  split; [reflexivity|].
  assert (Hmem : forall y, y ∈ x :: xs <->
            exists b, b ∈ fd /\ y = (Volume b * 0x1.3333333333333p+0)%float).
  { intros y. rewrite <- Hsc. unfold scaled. rewrite <- list_fmap_compose.
    rewrite list_elem_of_fmap. simpl. split.
    - intros (b & -> & Hb). exists b. auto.
    - intros (b & Hb & ->). exists b. auto. }
  split.
  - apply Hmem in Hin as (b & Hb & Heq). exists b. auto.
  - intros b Hb.
    assert (Hy : (Volume b * 0x1.3333333333333p+0)%float ∈ x :: xs)
      by (apply Hmem; exists b; auto).
    apply elem_of_cons in Hy as [-> | Hy]; [exact Hle|].
    exact (proj1 (Forall_forall _ _) Hall _ Hy).
Qed.

Lemma volume_axis_holds_every_bar_witness :
  exists c,
    tab2 [Bar 1704153600000000000 100 5000; Bar 1704240000000000000 101 7000]
      (mkdate 2024 1 1) (mkdate 2024 1 5) = Ok c /\
    chart_rows c
    = tab2_filtered_data
        [Bar 1704153600000000000 100 5000; Bar 1704240000000000000 101 7000]
        (mkdate 2024 1 1) (mkdate 2024 1 5) /\
    (exists b, b ∈ chart_rows c /\
               volume_range c = (Volume b * 0x1.3333333333333p+0)%float) /\
    forall b, b ∈ chart_rows c ->
      (Volume b * 0x1.3333333333333p+0 <=? volume_range c)%float = true.
Proof.
  apply (volume_axis_holds_every_bar
           [Bar 1704153600000000000 100 5000; Bar 1704240000000000000 101 7000]
           (mkdate 2024 1 1) (mkdate 2024 1 5)).
  - vm_compute. discriminate.
  - repeat constructor.
Defined.

Lemma length_pct_change (s : list float) : length (pct_change s) = length s.
Proof.
  unfold pct_change, shift1.
  rewrite length_zip_with, length_take. simpl. lia.
Qed.

(** X11: the colours of the volume bars (line 193).  There is one colour per
    row; the first bar is green whatever the prices are, because its change
    is NaN and [NaN < 0] is false; and on closes without NaN every later bar
    is red exactly when the binary64 value of [close / previous close - 1] is
    below zero. *)
Theorem volume_bar_colours (close : list float) :
  length (marker_color close) = length close /\
  (forall c, marker_color close !! 0%nat = Some c -> c = green) /\
  (Forall (fun x => is_nan x = false) close ->
   forall (t : nat) (prev cur : float),
     close !! t = Some prev -> close !! S t = Some cur ->
     marker_color close !! S t
     = Some (if (cur / prev - 1 <? 0)%float then red else green)).
Proof.
  split; [|split].
  - unfold marker_color. rewrite length_fmap. apply length_pct_change.
  - intros c. unfold marker_color. destruct close as [|x s]; [discriminate|].
    rewrite pct_change_cons. simpl.
    rewrite ltb_nan_l by apply pct_of_nan_is_nan. congruence.
  - intros Hnan t prev cur Hprev Hcur. unfold marker_color.
    destruct close as [|x s]; [discriminate|].
    apply Forall_cons in Hnan as [Hx Hs].
    rewrite pct_change_cons. simpl.
    rewrite list_lookup_fmap, lookup_zip_with.
    simpl in Hcur. rewrite Hcur. simpl. rewrite Hprev. reflexivity.
Qed.

(** ** Tab 1: the duration of the summary chart *)

Lemma foldr_min_le (d : Z) (ds : list Z) :
  foldr Z.min d ds <= d /\ Forall (fun x => foldr Z.min d ds <= x) ds.
Proof.
  induction ds as [|x ds [IHd IHs]]; simpl; [split; [lia | constructor]|].
  split; [lia|]. constructor; [lia|].
  eapply Forall_impl; [exact IHs|]. simpl. lia.
Qed.

Lemma filter_all {A : Type} (P : A -> Prop) `{!forall x, Decision (P x)}
    (l : list A) :
  Forall P l -> filter P l = l.
Proof.
  induction 1 as [|x l Hx _ IH]; [reflexivity|].
  rewrite filter_cons_True by exact Hx. rewrite IH. reflexivity.
Qed.

Lemma filter_from_mono (s1 s2 : Z) (stock_data : list bar) :
  s2 <= s1 ->
  filter (fun b => s1 <= Date b) stock_data
    `sublist_of` filter (fun b => s2 <= Date b) stock_data.
Proof.
  intros Hle.
  rewrite <- (list_filter_filter_l (fun b => s1 <= Date b)
                (fun b => s2 <= Date b)) by (intros b; lia).
  apply sublist_filter.
Qed.

(** No row of the frame lies before the minimum of its [Date] column. *)
Lemma Date_min_le (stock_data : list bar) (start_date : Z) :
  Date_min stock_data = Some start_date ->
  Forall (fun b => start_date <= Date b) stock_data.
Proof.
  unfold Date_min. destruct stock_data as [|b bs]; [discriminate|].
  rewrite fmap_cons. intros [= <-].
  destruct (foldr_min_le (Date b) (Date <$> bs)) as [Hb Hbs].
  constructor; [exact Hb|].
  exact (proj1 (Forall_fmap _ _ _) Hbs).
Qed.

(** X12: the duration "MAX" keeps every row of the history: the start date is
    then the earliest timestamp of the frame, and no row lies before it. *)
Theorem max_duration_keeps_history (today : date) (stock_data : list bar) :
  tab1_filtered_data today stock_data D_MAX = stock_data.
Proof.
  unfold tab1_filtered_data, tab1_start_date. simpl.
  destruct (Date_min stock_data) as [start_date|] eqn:Hmin.
  - apply filter_all, Date_min_le, Hmin.
  - destruct stock_data; [reflexivity | discriminate Hmin].
Qed.

(** Evaluates the entries read from the two tables of month lengths. *)
Ltac table_entries :=
  repeat match goal with
         | |- context [default 0 (?l !! Z.to_nat ?m)] =>
             let v := eval vm_compute in (default 0 (l !! Z.to_nat m)) in
             change (default 0 (l !! Z.to_nat m)) with v
         end.

(** The day of a valid date is at most the 366th of its year. *)
Lemma day_of_year_bound (d : date) :
  valid_date d = true ->
  1 <= days_before_month (year d) (month d) + day d <= 366.
Proof.
  unfold valid_date. rewrite !andb_true_iff, !Z.leb_le.
  intros [[[[[_ _] Hm1] Hm2] Hd1] Hd2].
  assert (Hm : month d = 1 \/ month d = 2 \/ month d = 3 \/ month d = 4 \/
               month d = 5 \/ month d = 6 \/ month d = 7 \/ month d = 8 \/
               month d = 9 \/ month d = 10 \/ month d = 11 \/ month d = 12)
    by lia.
  revert Hd2. unfold days_in_month, days_before_month.
  destruct (is_leap (year d));
    repeat (destruct Hm as [-> | Hm]; [table_entries; cbn; lia|]);
    rewrite Hm; table_entries; cbn; lia.
Qed.

(** X13: the durations nest.  For a valid date of today, the rows shown for a
    duration are a subsequence of the rows shown for the next longer one:
    1M, 3M, 6M, 1Y, 3Y, 5Y and MAX in this order, and the rows of "YTD" are
    among those of "1Y". *)
Theorem durations_nest (today : date) (stock_data : list bar) :
  valid_date today = true ->
  let shown := tab1_filtered_data today stock_data in
  shown D_1M `sublist_of` shown D_3M /\
  shown D_3M `sublist_of` shown D_6M /\
  shown D_6M `sublist_of` shown D_1Y /\
  shown D_YTD `sublist_of` shown D_1Y /\
  shown D_1Y `sublist_of` shown D_3Y /\
  shown D_3Y `sublist_of` shown D_5Y /\
  shown D_5Y `sublist_of` shown D_MAX.
Proof.
  intros Hvalid shown.
  assert (Hstep : forall n1 n2, n1 <= n2 ->
            filter (fun b => Timestamp_of_ordinal (toordinal today - n1) <= Date b)
              stock_data
            `sublist_of`
            filter (fun b => Timestamp_of_ordinal (toordinal today - n2) <= Date b)
              stock_data).
  { intros n1 n2 Hn. apply filter_from_mono. unfold Timestamp_of_ordinal. lia. }
  split; [apply Hstep; lia|]. split; [apply Hstep; lia|].
  split; [apply Hstep; lia|]. split.
  - subst shown. unfold tab1_filtered_data, tab1_start_date. simpl.
    apply filter_from_mono. unfold Timestamp, Timestamp_of_ordinal, toordinal. simpl.
    pose proof (day_of_year_bound today Hvalid) as Hday.
    change (days_before_month (year today) 1) with 0.
    lia.
  - split; [apply Hstep; lia|]. split; [apply Hstep; lia|].
    subst shown. unfold tab1_filtered_data, tab1_start_date. simpl.
    destruct (Date_min stock_data) as [start_date|] eqn:Hmin.
    + rewrite (filter_all (fun b => start_date <= Date b) stock_data)
        by apply Date_min_le, Hmin.
      apply sublist_filter.
    + destruct stock_data; [constructor | discriminate Hmin].
Qed.

Lemma durations_nest_witness :
  let shown :=
    tab1_filtered_data (mkdate 2024 3 15)
      [Bar 1704153600000000000 100 5000; Bar 1709251200000000000 101 7000] in
  shown D_1M `sublist_of` shown D_3M /\
  shown D_3M `sublist_of` shown D_6M /\
  shown D_6M `sublist_of` shown D_1Y /\
  shown D_YTD `sublist_of` shown D_1Y /\
  shown D_1Y `sublist_of` shown D_3Y /\
  shown D_3Y `sublist_of` shown D_5Y /\
  shown D_5Y `sublist_of` shown D_MAX.
Proof.
  apply (durations_nest (mkdate 2024 3 15)
           [Bar 1704153600000000000 100 5000; Bar 1709251200000000000 101 7000]).
  reflexivity.
Defined.

(** ** The session and the cache *)

Lemma run_state {D : Type} (fetch : string -> result D)
    (selected_ticker : string) (update : bool) (a : app_state D) :
  (run fetch selected_ticker update a).1
  = if update then
      match get_serializable_stock_data fetch selected_ticker (cache a) with
      | Ok (d, c) =>
          App c (<["ticker"%string := STicker selected_ticker]>
                   (<["data"%string := SData d]> (with_data_key a)))
      | Raise _ => App (cache a) (with_data_key a)
      end
    else App (cache a) (with_data_key a).
Proof.
  unfold run. destruct update.
  - destruct (get_serializable_stock_data fetch selected_ticker (cache a))
      as [[d c]|e]; [|reflexivity].
    cbn [session_state].
    destruct (_ !! "data"%string) as [[]|]; reflexivity.
  - cbn [session_state].
    destruct (with_data_key a !! "data"%string) as [[]|]; reflexivity.
Qed.

Lemma with_data_key_data {D : Type} (a : app_state D) (d : D) :
  with_data_key a !! "data"%string = Some (SData d) ->
  session_state a !! "data"%string = Some (SData d).
Proof.
  unfold with_data_key.
  destruct (session_state a !! "data"%string) as [v|] eqn:Hv.
  - rewrite Hv. trivial.
  - rewrite lookup_insert_eq. discriminate.
Qed.

Lemma with_data_key_ticker {D : Type} (a : app_state D) :
  with_data_key a !! "ticker"%string = session_state a !! "ticker"%string.
Proof.
  unfold with_data_key.
  destruct (session_state a !! "data"%string); [reflexivity|].
  apply lookup_insert_ne. discriminate.
Qed.

Lemma cached_lookup {D : Type} (fetch : string -> result D) (ticker : string)
    (c c' : gmap string D) (d : D) :
  get_serializable_stock_data fetch ticker c = Ok (d, c') ->
  c' !! ticker = Some d /\
  forall t d0, c !! t = Some d0 -> c' !! t = Some d0.
Proof.
  unfold get_serializable_stock_data.
  destruct (c !! ticker) as [d1|] eqn:Hc.
  - intros [= <- <-]. split; [exact Hc | trivial].
  - destruct (fetch ticker) as [d1|e]; [|discriminate].
    simpl. intros [= <- <-]. split; [apply lookup_insert_eq|].
    intros t d0 Ht. rewrite lookup_insert_ne; [exact Ht | congruence].
Qed.

Lemma run_cache_grows {D : Type} (fetch : string -> result D)
    (selected_ticker : string) (update : bool) (a : app_state D) (t : string) (d : D) :
  cache a !! t = Some d ->
  cache (run fetch selected_ticker update a).1 !! t = Some d.
Proof.
  intros Ht. rewrite run_state. destruct update; [|exact Ht].
  destruct (get_serializable_stock_data fetch selected_ticker (cache a))
    as [[d1 c]|e] eqn:Hget; [|exact Ht].
  apply cached_lookup in Hget as [_ Hgrow]. apply Hgrow, Ht.
Qed.

Lemma after_snoc {D : Type} (events : list (interaction D)) (i : interaction D) :
  after (events ++ [i])
  = (run (provider i) (selection i) (pressed i) (after events)).1.
Proof. unfold after. rewrite foldl_app. reflexivity. Qed.

(** X14: the data on display always belong to the ticker stored with them.
    After any sequence of runs from a fresh session, when the session holds
    data, it also holds the ticker object of some ticker [t], and the data
    are the cache entry of [t]: lines 51 and 52 are never out of step. *)
Theorem session_data_match_ticker {D : Type} (events : list (interaction D))
    (d : D) :
  session_state (after events) !! "data"%string = Some (SData d) ->
  exists t,
    session_state (after events) !! "ticker"%string = Some (STicker t) /\
    cache (after events) !! t = Some d.
Proof.
  revert d. induction events as [|i events IH] using rev_ind; intros d.
  - unfold after, fresh. simpl. rewrite lookup_empty. discriminate.
  - rewrite after_snoc, run_state.
    destruct (pressed i).
    + destruct (get_serializable_stock_data (provider i) (selection i)
                  (cache (after events))) as [[d1 c]|e] eqn:Hget.
      * cbn [session_state cache].
        rewrite lookup_insert_ne by discriminate.
        rewrite lookup_insert_eq. intros [= <-].
        exists (selection i). rewrite lookup_insert_eq.
        split; [reflexivity|].
        apply cached_lookup in Hget as [Hhit _]. exact Hhit.
      * cbn [session_state cache]. intros Hd.
        apply with_data_key_data, IH in Hd as (t & Ht & Hc).
        exists t. rewrite with_data_key_ticker. auto.
    + cbn [session_state cache]. intros Hd.
      apply with_data_key_data, IH in Hd as (t & Ht & Hc).
      exists t. rewrite with_data_key_ticker. auto.
Qed.

Lemma session_data_match_ticker_witness :
  exists t,
    session_state
      (after [Interaction (fun _ => Ok 7) "AAPL"%string true;
              Interaction (fun _ => Ok 8) "MSFT"%string false])
      !! "ticker"%string = Some (STicker t) /\
    cache
      (after [Interaction (fun _ => Ok 7) "AAPL"%string true;
              Interaction (fun _ => Ok 8) "MSFT"%string false])
      !! t = Some 7.
Proof.
  apply (session_data_match_ticker
           [Interaction (fun _ => Ok 7) "AAPL"%string true;
            Interaction (fun _ => Ok 8) "MSFT"%string false] 7).
  vm_compute. reflexivity.
Defined.

(** X15: selecting another ticker does not change the data.  When a run shows
    the tabs for the data [d], a following run in which the button is not
    pressed shows the same data and the same ticker object under a header
    that names whatever ticker is selected then, and leaves the state as it
    is: the header and the data can belong to different tickers. *)
Theorem selection_without_update {D : Type} (fetch fetch' : string -> result D)
    (selected_ticker selected_ticker' : string) (update : bool) (a : app_state D)
    (shown : string) (d : D) (stock : session_value D) :
  (run fetch selected_ticker update a).2 = Ok (Tabs shown d stock) ->
  let a1 := (run fetch selected_ticker update a).1 in
  run fetch' selected_ticker' false a1
  = (a1, Ok (Tabs selected_ticker' d stock)).
Proof.
  intros Hrun a1.
  assert (Hstate : session_state a1 !! "data"%string = Some (SData d) /\
                   default SNone (session_state a1 !! "ticker"%string) = stock).
  { subst a1. revert Hrun. unfold run.
    destruct update.
    - destruct (get_serializable_stock_data fetch selected_ticker (cache a))
        as [[d1 c]|e]; [|discriminate].
      cbn [session_state].
      destruct (_ !! "data"%string) as [[|d2|t2]|] eqn:Hd; try discriminate.
      cbn [snd fst session_state]. intros [= _ <- <-]. rewrite Hd. auto.
    - cbn [session_state].
      destruct (with_data_key a !! "data"%string) as [[|d2|t2]|] eqn:Hd;
        try discriminate.
      cbn [snd fst session_state]. intros [= _ <- <-]. rewrite Hd. auto. }
  destruct Hstate as [Hd Hs]. unfold run, with_data_key. rewrite Hd.
  cbn [session_state].
  rewrite Hd, Hs. destruct a1; reflexivity.
Qed.

Lemma selection_without_update_witness :
  run (fun _ => Raise ProviderError) "MSFT"%string false
    (run (fun _ => Ok 7) "AAPL"%string true fresh).1
  = ((run (fun _ => Ok 7) "AAPL"%string true fresh).1,
     Ok (Tabs "MSFT"%string 7 (STicker "AAPL"%string))).
Proof.
  apply (selection_without_update (fun _ => Ok 7) (fun _ => Raise ProviderError)
           "AAPL"%string "MSFT"%string true fresh "AAPL"%string 7
           (STicker "AAPL"%string)).
  vm_compute. reflexivity.
Defined.

(** X16: cached data are never fetched again.  Once the cache holds data for a
    ticker, it holds the same data after any further runs, and pressing
    "Update Data" for that ticker shows them whatever the provider would
    answer then, even when the provider fails. *)
Theorem cached_data_are_not_refreshed {D : Type}
    (events more : list (interaction D)) (fetch : string -> result D)
    (ticker : string) (d : D) :
  cache (after events) !! ticker = Some d ->
  cache (after (events ++ more)) !! ticker = Some d /\
  (run fetch ticker true (after (events ++ more))).2
  = Ok (Tabs ticker d (STicker ticker)).
Proof.
  intros Hc.
  assert (Hlater : cache (after (events ++ more)) !! ticker = Some d).
  { induction more as [|i more IH] using rev_ind.
    - rewrite app_nil_r. exact Hc.
    - rewrite app_assoc, after_snoc. apply run_cache_grows, IH. }
  split; [exact Hlater|].
  unfold run, get_serializable_stock_data. rewrite Hlater.
  cbn [session_state].
  rewrite lookup_insert_ne by discriminate.
  rewrite !lookup_insert_eq. reflexivity.
Qed.

Lemma cached_data_are_not_refreshed_witness :
  cache (after ([Interaction (fun _ => Ok 7) "AAPL"%string true]
                ++ [Interaction (fun _ => Ok 8) "MSFT"%string true]))
    !! "AAPL"%string = Some 7 /\
  (run (fun _ => Raise ProviderError) "AAPL"%string true
     (after ([Interaction (fun _ => Ok 7) "AAPL"%string true]
             ++ [Interaction (fun _ => Ok 8) "MSFT"%string true]))).2
  = Ok (Tabs "AAPL"%string 7 (STicker "AAPL"%string)).
Proof.
  apply (cached_data_are_not_refreshed
           [Interaction (fun _ => Ok 7) "AAPL"%string true]
           [Interaction (fun _ => Ok 8) "MSFT"%string true]
           (fun _ => Raise ProviderError) "AAPL"%string 7).
  vm_compute. reflexivity.
Defined.
